(** * slack-mcp-server: tool gating, error recovery and the saved-items handlers

    A shallow embedding of [pkg/server/server.go] and
    [pkg/handler/saved.go].  Go strings are [string], slices are lists,
    Go maps are [gmap]s, the process environment is a [gmap] read through
    [Getenv], and calls to the Slack backend are explicit state passing
    over a scripted backend. *)

From Stdlib Require Import String Ascii List Arith Lia Bool.
From stdpp Require Import base option list gmap strings.

Local Open Scope string_scope.

(** ** The parts of Go's [strings], [slices] and [os] packages the code uses *)

Module Go.

(** [strings.HasPrefix(s, p)]. *)
Fixpoint HasPrefix (s p : string) : bool :=
  match p, s with
  | EmptyString, _ => true
  | String _ _, EmptyString => false
  | String b p', String a s' => if Ascii.eqb a b then HasPrefix s' p' else false
  end.

(** [strings.Contains(s, sub)]: [sub] occurs at some offset of [s]. *)
Fixpoint Contains (s sub : string) : bool :=
  if HasPrefix s sub then true
  else match s with
       | EmptyString => false
       | String _ s' => Contains s' sub
       end.

(** [strings.Join(elems, sep)]. *)
Fixpoint Join (elems : list string) (sep : string) : string :=
  match elems with
  | [] => ""
  | [e] => e
  | e :: rest => e ++ sep ++ Join rest sep
  end.

(** [slices.Contains(xs, x)] on a slice of strings. *)
Fixpoint slices_Contains (xs : list string) (x : string) : bool :=
  match xs with
  | [] => false
  | y :: ys => if String.eqb y x then true else slices_Contains ys x
  end.

(** [strings.ReplaceAll(s, old, new)] for a one-byte [old], the only way
    the handlers call it. *)
Fixpoint ReplaceAll1 (s : string) (old : ascii) (new : string) : string :=
  match s with
  | EmptyString => ""
  | String a s' =>
      if Ascii.eqb a old then new ++ ReplaceAll1 s' old new
      else String a (ReplaceAll1 s' old new)
  end.

(** The process environment; [os.Getenv] answers the empty string for a
    variable that is not set. *)
Definition Getenv (env : gmap string string) (key : string) : string :=
  default "" (env !! key).

End Go.

(** ** pkg/server/server.go *)

Module Server.

Definition ToolConversationsHistory := "conversations_history".
Definition ToolConversationsReplies := "conversations_replies".
Definition ToolConversationsAddMessage := "conversations_add_message".
Definition ToolReactionsAdd := "reactions_add".
Definition ToolReactionsRemove := "reactions_remove".
Definition ToolAttachmentGetData := "attachment_get_data".
Definition ToolConversationsSearchMessages := "conversations_search_messages".
Definition ToolChannelsList := "channels_list".
Definition ToolUsergroupsList := "usergroups_list".
Definition ToolUsergroupsMe := "usergroups_me".
Definition ToolUsergroupsCreate := "usergroups_create".
Definition ToolUsergroupsUpdate := "usergroups_update".
Definition ToolUsergroupsUsersUpdate := "usergroups_users_update".
Definition ToolSavedList := "saved_list".
Definition ToolSavedComplete := "saved_complete".

Definition ValidToolNames : list string :=
  [ ToolConversationsHistory;
    ToolConversationsReplies;
    ToolConversationsAddMessage;
    ToolReactionsAdd;
    ToolReactionsRemove;
    ToolAttachmentGetData;
    ToolConversationsSearchMessages;
    ToolChannelsList;
    ToolUsergroupsList;
    ToolUsergroupsMe;
    ToolUsergroupsCreate;
    ToolUsergroupsUpdate;
    ToolUsergroupsUsersUpdate;
    ToolSavedList;
    ToolSavedComplete ].

(** *** ValidateEnabledTools *)

(** The first loop: [validToolSet[name] = true] for every valid name. *)
Definition build_validToolSet (names : list string) : gmap string bool :=
  foldl (fun m name => <[name := true]> m) ∅ names.

(** Reading a [map[string]bool] at a missing key gives [false]. *)
Definition map_index (m : gmap string bool) (k : string) : bool :=
  default false (m !! k).

(** The variables the second loop works on: the argument slice, the
    set built by the first loop, and the slice being accumulated. *)
Record validate_state := ValidateState {
  vs_tools : list string;
  vs_validToolSet : gmap string bool;
  vs_invalidTools : list string
}.

(** One iteration of [for _, tool := range tools], at index [i]. *)
Definition validate_step (st : validate_state) (i : nat) : validate_state :=
  match vs_tools st !! i with
  | Some tool =>
      if negb (map_index (vs_validToolSet st) tool)
      then ValidateState (vs_tools st) (vs_validToolSet st)
                         (vs_invalidTools st ++ [tool])%list
      else st
  | None => st
  end.

Definition validate_loop (tools : list string) : validate_state :=
  foldl validate_step
        (ValidateState tools (build_validToolSet ValidToolNames) [])
        (seq 0 (length tools)).

Definition invalid_tools_message (invalidTools : list string) : string :=
  "invalid tool name(s): " ++ Go.Join invalidTools ", "
    ++ ". Valid tools are: " ++ Go.Join ValidToolNames ", ".

(** The error returned ([None] is Go's [nil]) together with the
    argument slice as the call leaves it. *)
Definition ValidateEnabledTools_run (tools : list string)
  : option string * list string :=
  let st := validate_loop tools in
  (match vs_invalidTools st with
   | [] => None
   | _ :: _ => Some (invalid_tools_message (vs_invalidTools st))
   end,
   vs_tools st).

Definition ValidateEnabledTools (tools : list string) : option string :=
  fst (ValidateEnabledTools_run tools).

(** *** shouldAddTool *)

Definition shouldAddTool (env : gmap string string)
           (name : string) (enabledTools : list string) (envVarName : string)
  : bool :=
  if String.eqb envVarName "" then
    if Nat.eqb (length enabledTools) 0 then true
    else Go.slices_Contains enabledTools name
  else if Nat.ltb 0 (length enabledTools) && Go.slices_Contains enabledTools name
  then true
  else if Nat.eqb (length enabledTools) 0
  then negb (String.eqb (Go.Getenv env envVarName) "")
  else false.

(** *** The tool table built by NewMCPServer *)

(** The handler methods the tools are bound to. *)
Inductive tool_handler :=
| ConversationsHistoryHandler | ConversationsRepliesHandler
| ConversationsAddMessageHandler | ReactionsAddHandler
| ReactionsRemoveHandler | FilesGetHandler | ConversationsSearchHandler
| UsersSearchHandler | ChannelsHandler | UsergroupsListHandler
| UsergroupsMeHandler | UsergroupsCreateHandler | UsergroupsUpdateHandler
| UsergroupsUsersUpdateHandler | SavedListHandler | SavedCompleteHandler.

(** What NewMCPServer reads to decide the registrations:
    [provider.IsBotToken()], the [enabledTools] argument and the
    process environment. *)
Record config := Config {
  IsBotToken : bool;
  enabledTools : list string;
  environ : gmap string string
}.

(** [s.AddTool(tool, handler)] stores the handler under the tool's name. *)
Definition AddTool (name : string) (h : tool_handler)
           (tools : gmap string tool_handler) : gmap string tool_handler :=
  <[name := h]> tools.

(** [if cond { s.AddTool(...) }]. *)
Definition AddTool_if (cond : bool) (name : string) (h : tool_handler)
           (tools : gmap string tool_handler) : gmap string tool_handler :=
  if cond then AddTool name h tools else tools.

(** The sequence of registrations of NewMCPServer, in source order. *)
Definition register_tools (c : config) : gmap string tool_handler :=
  let gate name envVarName := shouldAddTool (environ c) name (enabledTools c) envVarName in
  let s := ∅ in
  let s := AddTool_if (gate ToolConversationsHistory "")
             ToolConversationsHistory ConversationsHistoryHandler s in
  let s := AddTool_if (gate ToolConversationsReplies "")
             ToolConversationsReplies ConversationsRepliesHandler s in
  let s := AddTool_if (gate ToolConversationsAddMessage "SLACK_MCP_ADD_MESSAGE_TOOL")
             ToolConversationsAddMessage ConversationsAddMessageHandler s in
  let s := AddTool_if (gate ToolReactionsAdd "SLACK_MCP_REACTION_TOOL")
             ToolReactionsAdd ReactionsAddHandler s in
  let s := AddTool_if (gate ToolReactionsRemove "SLACK_MCP_REACTION_TOOL")
             ToolReactionsRemove ReactionsRemoveHandler s in
  let s := AddTool_if (gate ToolAttachmentGetData "SLACK_MCP_ATTACHMENT_TOOL")
             ToolAttachmentGetData FilesGetHandler s in
  let s := AddTool_if (negb (IsBotToken c) && gate ToolConversationsSearchMessages "")
             ToolConversationsSearchMessages ConversationsSearchHandler s in
  let s := AddTool "users_search" UsersSearchHandler s in
  let s := AddTool_if (gate ToolChannelsList "")
             ToolChannelsList ChannelsHandler s in
  let s := AddTool_if (gate ToolUsergroupsList "")
             ToolUsergroupsList UsergroupsListHandler s in
  let s := AddTool_if (gate ToolUsergroupsMe "")
             ToolUsergroupsMe UsergroupsMeHandler s in
  let s := AddTool_if (gate ToolUsergroupsCreate "")
             ToolUsergroupsCreate UsergroupsCreateHandler s in
  let s := AddTool_if (gate ToolUsergroupsUpdate "")
             ToolUsergroupsUpdate UsergroupsUpdateHandler s in
  let s := AddTool_if (gate ToolUsergroupsUsersUpdate "")
             ToolUsergroupsUsersUpdate UsergroupsUsersUpdateHandler s in
  let s := AddTool_if (gate ToolSavedList "SLACK_MCP_SAVED_LIST_TOOL")
             ToolSavedList SavedListHandler s in
  let s := AddTool_if (gate ToolSavedComplete "SLACK_MCP_SAVED_COMPLETE_TOOL")
             ToolSavedComplete SavedCompleteHandler s in
  s.

(** *** Tool results and the middleware *)

(** [mcp.CallToolResult] with text content. *)
Record CallToolResult := MkCallToolResult {
  Content : list string;
  IsError : bool
}.

Definition NewToolResultText (text : string) : CallToolResult :=
  MkCallToolResult [text] false.

Definition NewToolResultError (text : string) : CallToolResult :=
  MkCallToolResult [text] true.

(** An argument of a tool call; only strings are read by [GetString]. *)
Inductive arg_value := ArgString (s : string) | ArgOther.

Record CallToolRequest := MkCallToolRequest {
  Name : string;
  Arguments : gmap string arg_value
}.

(** [request.GetString(key, def)]. *)
Definition GetString (req : CallToolRequest) (key def : string) : string :=
  match Arguments req !! key with
  | Some (ArgString s) => s
  | _ => def
  end.

(** The pair of a result pointer and an [error] that a handler returns; an error
    is represented by its [Error()] text, [None] is [nil]. *)
Definition handler_return : Type := option CallToolResult * option string.

(** [server.ToolHandlerFunc], over a world [W] that the handler may
    read and change (the Slack backend and the caches). *)
Definition ToolHandlerFunc (W : Type) : Type :=
  CallToolRequest -> W -> handler_return * W.

Definition ToolHandlerMiddleware (W : Type) : Type :=
  ToolHandlerFunc W -> ToolHandlerFunc W.

Definition authErrors : list string :=
  ["invalid_auth"; "not_authed"; "token_expired"; "token_revoked"].

(** The loop of isSlackAuthError over a slice of markers. *)
Fixpoint contains_any (msg : string) (markers : list string) : bool :=
  match markers with
  | [] => false
  | e :: rest => if Go.Contains msg e then true else contains_any msg rest
  end.

Definition isSlackAuthError (msg : string) : bool :=
  contains_any msg authErrors.

(** The [fmt.Sprintf] of the middleware. *)
Definition auth_failed_message (errMsg : string) : string :=
  "Slack authentication failed (" ++ errMsg
    ++ "). Your xoxc/xoxd browser session tokens "
    ++ "have expired. Run the /slack-token-refresh skill to automatically refresh them.".

Definition buildErrorRecoveryMiddleware {W} : ToolHandlerMiddleware W :=
  fun next req w =>
    let '((res, err), w') := next req w in
    match err with
    | Some e =>
        let errMsg := e in
        let errMsg := if isSlackAuthError errMsg
                      then auth_failed_message errMsg else errMsg in
        ((Some (NewToolResultError errMsg), None), w')
    | None => ((res, None), w')
    end.

(** buildLoggerMiddleware only logs around the call. *)
Definition buildLoggerMiddleware {W} : ToolHandlerMiddleware W :=
  fun next req w =>
    let '((res, err), w') := next req w in
    ((res, err), w').

(** The middleware stack of NewMCPServer around a handler: the error
    recovery middleware is outermost, then the logger, then the
    authentication middleware of [pkg/server/auth], which is taken as
    a parameter. *)
Definition middleware_stack {W} (authMiddleware : ToolHandlerMiddleware W)
  : ToolHandlerMiddleware W :=
  fun handler =>
    buildErrorRecoveryMiddleware (buildLoggerMiddleware (authMiddleware handler)).

(** *** Startup: authentication and resources *)

Record AuthTestResponse := MkAuthTestResponse {
  Team : string;
  User : string;
  EnterpriseID : string;
  URL : string
}.

Record MCPServer := MkMCPServer {
  tools : gmap string tool_handler;
  resources : list (string * string)
}.

(** [logger.Fatal] ends the process; otherwise the constructor returns. *)
Inductive startup (A : Type) :=
| Started (a : A)
| Fatal (msg : string) (cause : string).
Arguments Started {A} a.
Arguments Fatal {A} msg cause.

(** NewMCPServer: the registrations, then [AuthTest], then
    [text.Workspace] on the URL it returned (a parameter: [pkg/text]
    is another package), then the two resources. *)
Definition NewMCPServer (Workspace : string -> string + string)
           (c : config) (authTest : AuthTestResponse + string)
  : startup MCPServer :=
  let s := register_tools c in
  match authTest with
  | inr err => Fatal "Failed to authenticate with Slack" err
  | inl ar =>
      match Workspace (URL ar) with
      | inr err => Fatal "Failed to parse workspace from URL" err
      | inl ws =>
          Started (MkMCPServer s
            [ ("slack://" ++ ws ++ "/channels", "Directory of Slack channels");
              ("slack://" ++ ws ++ "/users", "Directory of Slack users") ])
      end
  end.

End Server.

(** ** The regular expressions of pkg/handler/saved.go

    Go's [regexp] finds the match a backtracking matcher finds first
    (leftmost, greedy repetitions taking as much as they can).  The
    patterns used are sequences of repeated character classes with one
    capture group, and that is what is embedded here. *)

Module Regexp.

Inductive repeat := One | Opt | Star | Plus.

(** A character class, how often it repeats, and whether what it
    consumes belongs to capture group 1. *)
Record atom := Atom {
  class : ascii -> bool;
  rep : repeat;
  in_group : bool
}.

Definition regexp := list atom.

Definition is_char (c : ascii) : ascii -> bool := fun a => Ascii.eqb a c.

Fixpoint none_of (cs : list ascii) : ascii -> bool :=
  fun a =>
    match cs with
    | [] => true
    | c :: cs' => if Ascii.eqb a c then false else none_of cs' a
    end.

(** A match: the text of group 1 and the input left after the match. *)
Definition matched : Type := string * string.

Definition keep (a : atom) (c : ascii) (r : option matched) : option matched :=
  match r with
  | Some (g, rest) => Some (if in_group a then String c g else g, rest)
  | None => None
  end.

Definition or_else (r : option matched) (alt : option matched) : option matched :=
  match r with
  | Some m => Some m
  | None => alt
  end.

(** Exactly one character of the class, then [k]. *)
Definition one (a : atom) (k : string -> option matched) (s : string)
  : option matched :=
  match s with
  | String c s' => if class a c then keep a c (k s') else None
  | EmptyString => None
  end.

(** As many characters of the class as possible, giving back one at a
    time while [k] fails on what follows. *)
Fixpoint star (a : atom) (k : string -> option matched) (s : string)
  : option matched :=
  match s with
  | String c s' =>
      if class a c then or_else (keep a c (star a k s')) (k s) else k s
  | EmptyString => k s
  end.

(** Match the pattern at the start of [s]. *)
Fixpoint match_here (re : regexp) : string -> option matched :=
  match re with
  | [] => fun s => Some ("", s)
  | a :: re' =>
      match rep a with
      | One => one a (match_here re')
      | Opt => fun s => or_else (one a (match_here re') s) (match_here re' s)
      | Star => star a (match_here re')
      | Plus => one a (star a (match_here re'))
      end
  end.

(** [re.ReplaceAllString(s, "$1")] for a pattern that matches no empty
    string: scan left to right, put group 1 in place of each match and
    go on after it.  [fuel] bounds the number of steps. *)
Fixpoint replace_group1 (re : regexp) (fuel : nat) (s : string) : string :=
  match fuel with
  | O => s
  | S fuel' =>
      match match_here re s with
      | Some (g, rest) => g ++ replace_group1 re fuel' rest
      | None =>
          match s with
          | EmptyString => ""
          | String c s' => String c (replace_group1 re fuel' s')
          end
      end
  end.

(** One step per byte of the input is enough (see [replace_fuel]). *)
Definition ReplaceAllString_group1 (re : regexp) (s : string) : string :=
  replace_group1 re (String.length s) s.

End Regexp.

(** ** pkg/handler/saved.go *)

Module Handler.

Import Server.

(** slackLinkRe: [<([^|>]+)\|?[^>]*>]. *)
Definition slackLinkRe : Regexp.regexp :=
  [ Regexp.Atom (Regexp.is_char "<") Regexp.One false;
    Regexp.Atom (Regexp.none_of ["|"; ">"]%char) Regexp.Plus true;
    Regexp.Atom (Regexp.is_char "|") Regexp.Opt false;
    Regexp.Atom (Regexp.none_of [">"]%char) Regexp.Star false;
    Regexp.Atom (Regexp.is_char ">") Regexp.One false ].

(** The line feed, Go's ["\n"]. *)
Definition newline : ascii := ascii_of_nat 10.

(** The fields of [provider.SavedItem] and of the Slack client's types
    that the handlers read. *)
Record SavedItem := MkSavedItem {
  ItemID : string;
  item_Ts : string;
  item_State : string;
  DateCreated : Z;
  DateDue : Z
}.

Record SavedListResponse := MkSavedListResponse {
  SavedItems : list SavedItem;
  NextCursor : string
}.

Record Message := MkMessage {
  msg_User : string;
  msg_Text : string
}.

Record GetConversationHistoryParameters := MkHistoryParameters {
  ChannelID : string;
  Latest : string;
  Oldest : string;
  Limit : Z;
  Inclusive : bool
}.

Record SlackUser := MkUser { RealName : string }.
Record SlackChannel := MkChannel { channel_Name : string }.

(** The caches handed out by the provider; [None] is a nil pointer. *)
Record caches := MkCaches {
  ChannelsCache : option (gmap string SlackChannel);
  UsersCache : option (gmap string SlackUser)
}.

(** SavedItemRow, the CSV row. *)
Record SavedItemRow := MkSavedItemRow {
  Channel : string;
  ChannelName : string;
  Ts : string;
  State : string;
  DateSaved : string;
  row_DateDue : string;
  row_User : string;
  Text : string;
  Link : string;
  Cursor : string
}.

(** The methods of the provider's Slack client that the handlers call.
    Each takes the state of the backend [W] and gives the answer
    (a value or the text of an error) with the state after the call. *)
Class SlackAPI (W : Type) := {
  SavedListContext : string -> W -> (SavedListResponse + string) * W;
  SavedCompleteContext : string -> string -> W -> option string * W;
  GetConversationHistoryContext :
    GetConversationHistoryParameters -> W -> (list Message + string) * W;
  AuthTest : W -> (AuthTestResponse + string) * W
}.

(** [strings.TrimRight(s, cutset)] for a one-byte cutset. *)
Fixpoint TrimRight1 (s : string) (c : ascii) : string :=
  match s with
  | EmptyString => ""
  | String a s' =>
      let t := TrimRight1 s' c in
      if Ascii.eqb a c && String.eqb t "" then "" else String a t
  end.

Section Handlers.

Context {W : Type} `{SlackAPI W}.

(** [time.Unix(sec, 0).UTC().Format(time.RFC3339)] and
    [gocsv.MarshalBytes] are library code. *)
Variable formatRFC3339 : Z -> string.
Variable MarshalBytes : list SavedItemRow -> string + string.

(** fetchMessageText returns (username, text). *)
Definition fetchMessageText (channelID ts : string)
           (usersCache : option (gmap string SlackUser)) (w : W)
  : (string * string) * W :=
  let params := MkHistoryParameters channelID ts ts 1 true in
  let '(history, w') := GetConversationHistoryContext params w in
  match history with
  | inr _ => (("", ""), w')
  | inl [] => (("", ""), w')
  | inl (msg :: _) =>
      let userName :=
        match usersCache with
        | Some users =>
            match users !! msg_User msg with
            | Some u => RealName u
            | None => msg_User msg
            end
        | None => msg_User msg
        end in
      let text := Regexp.ReplaceAllString_group1 slackLinkRe (msg_Text msg) in
      let text := Go.ReplaceAll1 text newline " " in
      ((userName, text), w')
  end.

(** SavedCompleteHandler. *)
Definition SavedCompleteHandler : ToolHandlerFunc W :=
  fun request w =>
    let channel := GetString request "channel" "" in
    if String.eqb channel "" then ((None, Some "channel is required"), w)
    else
      let ts := GetString request "ts" "" in
      if String.eqb ts "" then ((None, Some "ts is required"), w)
      else
        let '(err, w') := SavedCompleteContext channel ts w in
        match err with
        | Some e => ((None, Some e), w')
        | None => ((Some (NewToolResultText "Item marked as complete."), None), w')
        end.

(** The loop of SavedListHandler that fetches all pages.  The Go
    loop has no bound; [fuel] counts the iterations allowed, and [None]
    means the loop is still running when they are used up. *)
Fixpoint fetch_pages (fuel : nat) (cursor : string)
         (allSavedItems : list SavedItem) (w : W)
  : option ((list SavedItem + string) * W) :=
  match fuel with
  | O => None
  | S fuel' =>
      let '(result, w') := SavedListContext cursor w in
      match result with
      | inr err => Some (inr err, w')
      | inl result =>
          let allSavedItems := (allSavedItems ++ SavedItems result)%list in
          if String.eqb (NextCursor result) "" then Some (inl allSavedItems, w')
          else fetch_pages fuel' (NextCursor result) allSavedItems w'
      end
  end.

(** The body of [for _, item := range allSavedItems]. *)
Definition build_row (workspaceURL : string) (c : caches) (item : SavedItem) (w : W)
  : SavedItemRow * W :=
  let channelName :=
    match ChannelsCache c with
    | Some channels =>
        match channels !! ItemID item with
        | Some ch => channel_Name ch
        | None => ""
        end
    | None => ""
    end in
  let dateSaved :=
    if (0 <? DateCreated item)%Z then formatRFC3339 (DateCreated item) else "" in
  let dateDue :=
    if (0 <? DateDue item)%Z then formatRFC3339 (DateDue item) else "" in
  let '((msgUser, msgText), w') :=
    fetchMessageText (ItemID item) (item_Ts item) (UsersCache c) w in
  let link :=
    if negb (String.eqb workspaceURL "") && negb (String.eqb (item_Ts item) "")
    then workspaceURL ++ "/archives/" ++ ItemID item ++ "/p"
           ++ Go.ReplaceAll1 (item_Ts item) "." ""
    else "" in
  (MkSavedItemRow (ItemID item) channelName (item_Ts item) (item_State item)
                  dateSaved dateDue msgUser msgText link "", w').

Fixpoint build_rows (workspaceURL : string) (c : caches)
         (items : list SavedItem) (rows : list SavedItemRow) (w : W)
  : list SavedItemRow * W :=
  match items with
  | [] => (rows, w)
  | item :: items' =>
      let '(row, w') := build_row workspaceURL c item w in
      build_rows workspaceURL c items' (rows ++ [row])%list w'
  end.

(** SavedListHandler up to the rows handed to the CSV encoder:
    [inr] is the early return on a backend error. *)
Definition SavedList_rows (fuel : nat) (c : caches) (request : CallToolRequest) (w : W)
  : option ((list SavedItemRow + string) * W) :=
  let cursor := GetString request "cursor" "" in
  match fetch_pages fuel cursor [] w with
  | None => None
  | Some (inr err, w1) => Some (inr err, w1)
  | Some (inl allSavedItems, w1) =>
      let '(authResp, w2) := AuthTest w1 in
      let workspaceURL :=
        match authResp with
        | inl ar => TrimRight1 (URL ar) "/"
        | inr _ => ""
        end in
      let '(rows, w3) := build_rows workspaceURL c allSavedItems [] w2 in
      Some (inl rows, w3)
  end.

Definition SavedListHandler (fuel : nat) (c : caches)
           (request : CallToolRequest) (w : W)
  : option (handler_return * W) :=
  match SavedList_rows fuel c request w with
  | None => None
  | Some (inr err, w') => Some ((None, Some err), w')
  | Some (inl rows, w') =>
      match MarshalBytes rows with
      | inr err => Some ((None, Some err), w')
      | inl csvBytes => Some ((Some (NewToolResultText csvBytes), None), w')
      end
  end.

End Handlers.

(** A backend that answers the successive [saved.list] calls from a
    list of prepared answers and notes the cursor of each call and the
    arguments of each [saved.update] call; the answers of the other
    methods are fixed functions of their arguments. *)
Record scripted := MkScripted {
  pending : list (SavedListResponse + string);
  asked : list string;
  completed : list (string * string);
  history_of : GetConversationHistoryParameters -> list Message + string;
  complete_of : string -> string -> option string;
  auth_of : AuthTestResponse + string
}.

Definition scripted_SavedList (cursor : string) (w : scripted)
  : (SavedListResponse + string) * scripted :=
  let w' answers := MkScripted answers (asked w ++ [cursor])%list (completed w)
                      (history_of w) (complete_of w) (auth_of w) in
  match pending w with
  | r :: answers => (r, w' answers)
  | [] => (inr "no answer", w' [])
  end.

#[global] Instance scripted_api : SlackAPI scripted := {
  SavedListContext := scripted_SavedList;
  SavedCompleteContext channel ts w :=
    (complete_of w channel ts,
     MkScripted (pending w) (asked w) (completed w ++ [(channel, ts)])%list
                (history_of w) (complete_of w) (auth_of w));
  GetConversationHistoryContext params w := (history_of w params, w);
  AuthTest w := (auth_of w, w)
}.

(** The backend state after [saved.list] calls with the cursors
    [cursors] have left the answers [left] pending. *)
Definition after_calls (w : scripted) (cursors : list string)
           (left : list (SavedListResponse + string)) : scripted :=
  MkScripted left (asked w ++ cursors)%list (completed w)
             (history_of w) (complete_of w) (auth_of w).

End Handler.

(** ** The life of the process: startup, then serving tool calls *)

Module Lifecycle.

Import Server.

(** A Go function either returns or panics.  The handlers of the tools
    this file does not embed are arbitrary code, so a call of a handler
    ends in one of the two ways. *)
Inductive outcome :=
| Returned (r : handler_return)
| Panicked (value : string).

Definition HandlerFunc (W : Type) : Type :=
  CallToolRequest -> W -> outcome * W.

Definition Middleware (W : Type) : Type :=
  HandlerFunc W -> HandlerFunc W.

(** A handler that always returns, as those embedded above. *)
Definition returning {W} (h : ToolHandlerFunc W) : HandlerFunc W :=
  fun req w => let '(r, w') := h req w in (Returned r, w').

(** buildErrorRecoveryMiddleware has no [recover]: a panic of [next]
    goes through it; what [next] returns is treated as above. *)
Definition buildErrorRecoveryMiddleware {W} : Middleware W :=
  fun next req w =>
    match next req w with
    | (Panicked value, w') => (Panicked value, w')
    | (Returned (res, Some e), w') =>
        let errMsg := e in
        let errMsg := if isSlackAuthError errMsg
                      then auth_failed_message errMsg else errMsg in
        (Returned (Some (NewToolResultError errMsg), None), w')
    | (Returned (res, None), w') => (Returned (res, None), w')
    end.

(** buildLoggerMiddleware logs, calls [next] and logs again; a panic of
    [next] goes through it. *)
Definition buildLoggerMiddleware {W} : Middleware W :=
  fun next req w => next req w.

(** [server.WithRecovery()] of the MCP library, the first middleware
    that NewMCPServer installs: it recovers a panic of what it wraps and
    returns it as an error. *)
Definition WithRecovery {W} : Middleware W :=
  fun next req w =>
    match next req w with
    | (Panicked value, w') =>
        (Returned (None, Some ("panic recovered in " ++ Name req
                                 ++ " tool handler: " ++ value)), w')
    | (Returned r, w') => (Returned r, w')
    end.

(** The middleware of NewMCPServer in the order of its options: the
    library applies the first one installed outermost.  The
    authentication middleware of [pkg/server/auth] is a parameter. *)
Definition server_stack {W} (authMiddleware : Middleware W) : Middleware W :=
  fun handler =>
    WithRecovery
      (buildErrorRecoveryMiddleware
         (buildLoggerMiddleware (authMiddleware handler))).

(** What a client gets back for a tool call: a tool result, or a
    protocol-level error when the wrapped handler returned an error or
    the tool is not registered. *)
Inductive response :=
| ToolResult (r : option CallToolResult)
| ProtocolError (msg : string).

(** A call is answered, or a panic that nothing recovered ends the
    process. *)
Inductive served :=
| Answered (r : response)
| Crashed (value : string).

Section Serving.

Context {W : Type}.

(** The middleware installed and the code behind each handler method
    are parameters. *)
Variable stack : Middleware W.
Variable handler_code : tool_handler -> HandlerFunc W.

(** One tool call: look the tool up by name and run its handler inside
    the middleware. *)
Definition call_tool (srv : MCPServer) (req : CallToolRequest) (w : W)
  : served * W :=
  match tools srv !! Name req with
  | None => (Answered (ProtocolError "tool not found"), w)
  | Some h =>
      match stack (handler_code h) req w with
      | (Panicked value, w') => (Crashed value, w')
      | (Returned (res, Some e), w') => (Answered (ProtocolError e), w')
      | (Returned (res, None), w') => (Answered (ToolResult res), w')
      end
  end.

(** The requests are served in turn as long as the process lives: the
    responses given, and the panic that ended the process if one did. *)
Fixpoint serve (srv : MCPServer) (reqs : list CallToolRequest) (w : W)
  : list response * option string * W :=
  match reqs with
  | [] => ([], None, w)
  | req :: reqs' =>
      match call_tool srv req w with
      | (Crashed value, w') => ([], Some value, w')
      | (Answered r, w') =>
          let '(rs, crash, w'') := serve srv reqs' w' in
          (r :: rs, crash, w'')
      end
  end.

End Serving.

(** The process: it exits in NewMCPServer, or dies of a panic while
    serving, or serves every request it is sent. *)
Inductive life (W : Type) :=
| Exited (msg : string) (cause : string)
| Died (responses : list response) (value : string)
| Served (srv : MCPServer) (responses : list response) (w : W).
Arguments Exited {W} msg cause.
Arguments Died {W} responses value.
Arguments Served {W} srv responses w.

Definition run {W : Type} (handler_code : tool_handler -> HandlerFunc W)
           (authMiddleware : Middleware W)
           (Workspace : string -> string + string) (c : config)
           (authTest : AuthTestResponse + string)
           (reqs : list CallToolRequest) (w : W) : life W :=
  match NewMCPServer Workspace c authTest with
  | Fatal msg cause => Exited msg cause
  | Started srv =>
      match serve (server_stack authMiddleware) handler_code srv reqs w with
      | (rs, Some value, _) => Died rs value
      | (rs, None, w') => Served srv rs w'
      end
  end.

End Lifecycle.

(** ** Startup and cache warm-up (cmd/slack-mcp-server/main.go) *)

Module Startup.

Inductive transport := Stdio | SSE | HTTP.

(** Whether each directory cache reports ready. *)
Record caches_ready := Ready {
  usersReady : bool;
  channelsReady : bool
}.

(** What happens after startup: a watcher finishes its warm-up, or a
    client sends an operation that reads the users or channels cache. *)
Inductive event :=
| UsersWarm
| ChannelsWarm
| Operation (needsUsers needsChannels : bool).

Inductive reply :=
| Waiting
| ErrUsersNotReady
| ErrChannelsNotReady
| Done.

(** Modelled from the spec: the startup code of main.go is missing.
    In a pipe-based transport operations are accepted only once both
    directories report ready; the transports with their own handshake
    accept them from the start. *)
Definition accepting (t : transport) (st : caches_ready) : bool :=
  match t with
  | Stdio => usersReady st && channelsReady st
  | SSE | HTTP => true
  end.

(** Modelled from the spec: the provider's cache reads in
    pkg/provider are missing.  An operation that needs a cache that is
    not ready gets the NotReady error of that cache. *)
Definition answer (t : transport) (st : caches_ready)
           (needsUsers needsChannels : bool) : reply :=
  if negb (accepting t st) then Waiting
  else if needsUsers && negb (usersReady st) then ErrUsersNotReady
  else if needsChannels && negb (channelsReady st) then ErrChannelsNotReady
  else Done.

Definition step (t : transport) (st : caches_ready) (e : event)
  : caches_ready * option reply :=
  match e with
  | UsersWarm => (Ready true (channelsReady st), None)
  | ChannelsWarm => (Ready (usersReady st) true, None)
  | Operation u c => (st, Some (answer t st u c))
  end.

(** The replies to the operations of a trace, in order. *)
Fixpoint replies (t : transport) (st : caches_ready) (es : list event)
  : list reply :=
  match es with
  | [] => []
  | e :: es' =>
      let '(st', r) := step t st e in
      match r with
      | Some r => r :: replies t st' es'
      | None => replies t st' es'
      end
  end.

Fixpoint final (t : transport) (st : caches_ready) (es : list event)
  : caches_ready :=
  match es with
  | [] => st
  | e :: es' => final t (fst (step t st e)) es'
  end.

Definition cold : caches_ready := Ready false false.

(** The NotReady errors. *)
Definition is_not_ready (r : reply) : bool :=
  match r with
  | ErrUsersNotReady | ErrChannelsNotReady => true
  | _ => false
  end.

End Startup.

(** ** A backend that always has another page *)

Module Endless.

Import Server Handler.

(** Every [saved.list] call answers an empty page with a next cursor;
    the state counts the calls. *)
#[global] Instance endless_api : SlackAPI nat := {
  SavedListContext cursor n := (inl (MkSavedListResponse [] "again"), S n);
  SavedCompleteContext channel ts n := (None, n);
  GetConversationHistoryContext params n := (inl [], n);
  AuthTest n := (inr "offline", n)
}.

End Endless.

(** ** A backend that records every call *)

Module Traced.

Import Server Handler.

Inductive api_call :=
| CallSavedList (cursor : string)
| CallSavedComplete (channel ts : string)
| CallHistory (params : GetConversationHistoryParameters)
| CallAuthTest.

(** Any backend, with the list of the calls made so far next to its
    state: every method notes its call and then answers as the backend
    does. *)
Definition traced_api {W : Type} (api : SlackAPI W) : SlackAPI (W * list api_call) := {|
  SavedListContext cursor '(w, log) :=
    let '(r, w') := SavedListContext cursor w in
    (r, (w', (log ++ [CallSavedList cursor])%list));
  SavedCompleteContext channel ts '(w, log) :=
    let '(r, w') := SavedCompleteContext channel ts w in
    (r, (w', (log ++ [CallSavedComplete channel ts])%list));
  GetConversationHistoryContext params '(w, log) :=
    let '(r, w') := GetConversationHistoryContext params w in
    (r, (w', (log ++ [CallHistory params])%list));
  AuthTest '(w, log) :=
    let '(r, w') := AuthTest w in
    (r, (w', (log ++ [CallAuthTest])%list))
|}.

End Traced.

(** ** Slack message text, as the claims about it describe it *)

Module SlackMarkup.

(** A message text is a sequence of plain stretches and links; a link
    is written [<url|label>] or [<url>]. *)
Inductive segment :=
| Plain (t : string)
| Link (url : string) (label : option string).

Definition write (seg : segment) : string :=
  match seg with
  | Plain t => t
  | Link url (Some label) => "<" ++ url ++ "|" ++ label ++ ">"
  | Link url None => "<" ++ url ++ ">"
  end.

Definition bare (seg : segment) : string :=
  match seg with
  | Plain t => t
  | Link url _ => url
  end.

Fixpoint markup (segs : list segment) : string :=
  match segs with
  | [] => ""
  | seg :: segs' => write seg ++ markup segs'
  end.

Fixpoint bare_text (segs : list segment) : string :=
  match segs with
  | [] => ""
  | seg :: segs' => bare seg ++ bare_text segs'
  end.

Fixpoint all_chars (ok : ascii -> bool) (s : string) : bool :=
  match s with
  | EmptyString => true
  | String a s' => ok a && all_chars ok s'
  end.

Definition free_of (c : ascii) : string -> bool :=
  all_chars (fun a => negb (Ascii.eqb a c)).

(** Slack escapes the angle brackets of plain text; a URL is not empty
    and holds no bar and no closing bracket; a label holds no closing
    bracket. *)
Definition well_formed (seg : segment) : bool :=
  match seg with
  | Plain t => free_of "<" t
  | Link url label =>
      negb (String.eqb url "") && free_of "|" url && free_of ">" url
      && match label with
         | Some l => free_of ">" l
         | None => true
         end
  end.

(** The text with every newline turned into a space. *)
Fixpoint newlines_to_spaces (s : string) : string :=
  match s with
  | EmptyString => ""
  | String a s' =>
      String (if Ascii.eqb a (ascii_of_nat 10) then " "%char else a)
             (newlines_to_spaces s')
  end.

End SlackMarkup.

(** * Properties *)

(** ** Strings *)

Lemma string_app_cons (x : ascii) (a b : string) :
  String x a ++ b = String x (a ++ b).
Proof. reflexivity. Qed.

Lemma string_app_nil_l (a : string) : "" ++ a = a.
Proof. reflexivity. Qed.

Lemma string_app_assoc (a b c : string) : (a ++ b) ++ c = a ++ (b ++ c).
Proof.
  induction a as [|x a IH]; [reflexivity|].
  rewrite !string_app_cons. now rewrite IH.
Qed.

Lemma string_app_nil_r (a : string) : a ++ "" = a.
Proof.
  induction a as [|x a IH]; [reflexivity|].
  rewrite string_app_cons. now rewrite IH.
Qed.

Lemma string_length_app (a b : string) :
  String.length (a ++ b) = String.length a + String.length b.
Proof.
  induction a as [|x a IH]; [reflexivity|].
  rewrite string_app_cons. simpl. now rewrite IH.
Qed.

Lemma HasPrefix_spec (s p : string) :
  Go.HasPrefix s p = true <-> exists post, s = p ++ post.
Proof.
  revert s. induction p as [|b p IH]; intros s.
  - split; [intros _; now exists s | intros _; now destruct s].
  - destruct s as [|a s]; simpl.
    + split; [discriminate | intros [post E]; discriminate E].
    + destruct (Ascii.eqb_spec a b) as [->|Hne].
      * rewrite IH. split; intros [post E]; exists post.
        -- now rewrite E.
        -- rewrite string_app_cons in E. now inversion E.
      * split; [discriminate |].
        intros [post E]. rewrite string_app_cons in E. inversion E; contradiction.
Qed.

Lemma Contains_unfold (s sub : string) :
  Go.Contains s sub =
  if Go.HasPrefix s sub then true
  else match s with
       | EmptyString => false
       | String _ s' => Go.Contains s' sub
       end.
Proof. destruct s; reflexivity. Qed.

(** [strings.Contains] answers true exactly for the strings that have
    [sub] somewhere inside. *)
Lemma Contains_spec (s sub : string) :
  Go.Contains s sub = true <-> exists pre post, s = pre ++ sub ++ post.
Proof.
  induction s as [|a s IH]; rewrite Contains_unfold.
  - destruct (Go.HasPrefix "" sub) eqn:Hp.
    + apply HasPrefix_spec in Hp as [post E].
      split; [intros _; now exists "", post | reflexivity].
    + split; [discriminate |].
      intros [pre [post E]]. destruct pre; [|discriminate E].
      assert (Go.HasPrefix "" sub = true) by (apply HasPrefix_spec; now exists post).
      congruence.
  - destruct (Go.HasPrefix (String a s) sub) eqn:Hp.
    + apply HasPrefix_spec in Hp as [post E].
      split; [intros _; now exists "", post | reflexivity].
    + rewrite IH. split.
      * intros [pre [post E]]. exists (String a pre), post.
        rewrite string_app_cons. now rewrite E.
      * intros [pre [post E]]. destruct pre as [|x pre].
        -- assert (Go.HasPrefix (String a s) sub = true)
             by (apply HasPrefix_spec; now exists post).
           congruence.
        -- exists pre, post. rewrite string_app_cons in E. now inversion E.
Qed.

Lemma slices_Contains_spec (xs : list string) (x : string) :
  Go.slices_Contains xs x = true <-> x ∈ xs.
Proof.
  induction xs as [|y ys IH]; simpl.
  - split; [discriminate | intros H; inversion H].
  - destruct (String.eqb_spec y x) as [->|Hne].
    + split; [intros _; left | reflexivity].
    + rewrite IH. split; [intros H; now right |].
      intros H. inversion H; subst; [contradiction | assumption].
Qed.

Lemma slices_Contains_false (xs : list string) (x : string) :
  Go.slices_Contains xs x = false <-> x ∉ xs.
Proof.
  rewrite <- slices_Contains_spec. destruct (Go.slices_Contains xs x); split; congruence.
Qed.

(** ** shouldAddTool *)

(** The gate of a tool that has no opt-in variable. *)
Lemma shouldAddTool_default_gate (env : gmap string string) (T : string)
      (enabledTools : list string) :
  Server.shouldAddTool env T enabledTools "" = true
  <-> enabledTools = [] \/ T ∈ enabledTools.
Proof.
  unfold Server.shouldAddTool. simpl. split.
  - destruct enabledTools as [|t ts]; simpl; [now left|].
    intros Hc. right. now apply slices_Contains_spec.
  - intros [-> | Hin]; [reflexivity|].
    destruct enabledTools as [|t ts]; [reflexivity|].
    now apply slices_Contains_spec.
Qed.

(** C4. An allow-list that names the tool admits it whatever the
    environment says; with an empty allow-list a tool with an opt-in
    variable is admitted exactly when that variable is non-empty; a
    non-empty allow-list that does not name the tool rejects it, also
    when the variable is set; and a tool without a variable is admitted
    exactly when the allow-list is empty or names it. *)
Theorem shouldAddTool_allow_list_overrides
        (env : gmap string string) (T : string) (enabledTools : list string) (E : string) :
  (T ∈ enabledTools -> Server.shouldAddTool env T enabledTools E = true)
  /\ (E <> "" -> enabledTools = [] ->
      (Server.shouldAddTool env T enabledTools E = true <-> Go.Getenv env E <> ""))
  /\ (enabledTools <> [] -> T ∉ enabledTools ->
      Server.shouldAddTool env T enabledTools E = false)
  /\ (Server.shouldAddTool env T enabledTools "" = true
      <-> enabledTools = [] \/ T ∈ enabledTools).
Proof.
  split; [|split; [|split; [|apply shouldAddTool_default_gate]]];
    unfold Server.shouldAddTool; repeat split.
  - intros Hin. assert (Hc := proj2 (slices_Contains_spec _ _) Hin).
    destruct enabledTools as [|t ts]; [inversion Hin|].
    rewrite Hc. simpl. now destruct (String.eqb E "").
  - intros Hset. subst enabledTools. simpl in Hset.
    destruct (String.eqb_spec E "") as [->|_]; [contradiction|].
    simpl in *. now destruct (String.eqb_spec (Go.Getenv env E) "").
  - intros Hset. subst enabledTools.
    destruct (String.eqb_spec E "") as [->|_]; [contradiction|].
    simpl. now destruct (String.eqb_spec (Go.Getenv env E) "").
  - intros Hne Hnot. apply slices_Contains_false in Hnot. rewrite Hnot.
    destruct enabledTools as [|t ts]; [contradiction|].
    simpl. now destruct (String.eqb E "").
Qed.

Lemma shouldAddTool_allow_list_overrides_witness :
  Server.shouldAddTool {["SLACK_MCP_SAVED_LIST_TOOL" := "true"]}
                       "saved_list" ["channels_list"] "SLACK_MCP_SAVED_LIST_TOOL" = false.
Proof.
  apply (shouldAddTool_allow_list_overrides
           {["SLACK_MCP_SAVED_LIST_TOOL" := "true"]}
           "saved_list" ["channels_list"] "SLACK_MCP_SAVED_LIST_TOOL").
  - discriminate.
  - apply not_elem_of_cons. split; [discriminate | apply not_elem_of_nil].
Defined.

(** ** ValidateEnabledTools *)

Lemma map_index_insert_true (m : gmap string bool) (name t : string) :
  Server.map_index (<[name := true]> m) t
  = (bool_decide (t = name) || Server.map_index m t).
Proof.
  unfold Server.map_index. destruct (decide (t = name)) as [->|Hne].
  - rewrite lookup_insert_eq. now rewrite bool_decide_eq_true_2.
  - rewrite lookup_insert_ne by congruence. now rewrite bool_decide_eq_false_2.
Qed.

Lemma map_index_foldl (names : list string) (m : gmap string bool) (t : string) :
  Server.map_index (foldl (fun m name => <[name := true]> m) m names) t
  = (Server.map_index m t || bool_decide (t ∈ names)).
Proof.
  revert m. induction names as [|n names IH]; intros m; cbn [foldl].
  - case_bool_decide as Hin; [now apply elem_of_nil in Hin | now rewrite orb_false_r].
  - rewrite IH, map_index_insert_true.
    destruct (Server.map_index m t); repeat case_bool_decide; simpl;
      try reflexivity; exfalso; rewrite elem_of_cons in *; tauto.
Qed.

(** The set built by the first loop answers true exactly on the names
    it was built from. *)
Lemma validToolSet_spec (names : list string) (t : string) :
  Server.map_index (Server.build_validToolSet names) t = true <-> t ∈ names.
Proof.
  unfold Server.build_validToolSet. rewrite map_index_foldl.
  unfold Server.map_index at 1. rewrite lookup_empty. simpl.
  apply bool_decide_eq_true.
Qed.

(** The second loop leaves the argument slice and the set alone and
    appends, in order, the entries that the set does not hold. *)
Lemma validate_loop_from (tools pre suf : list string)
      (m : gmap string bool) (acc : list string) :
  tools = (pre ++ suf)%list ->
  foldl Server.validate_step (Server.ValidateState tools m acc)
        (seq (length pre) (length suf))
  = Server.ValidateState tools m
      (acc ++ filter (fun t => Server.map_index m t = false) suf)%list.
Proof.
  revert pre acc. induction suf as [|t suf IH]; intros pre acc Htools.
  - simpl. now rewrite app_nil_r.
  - cbn [length seq foldl].
    assert (Hlook : tools !! length pre = Some t)
      by (subst tools; apply list_lookup_middle; reflexivity).
    unfold Server.validate_step at 2. cbn [Server.vs_tools Server.vs_validToolSet
                                             Server.vs_invalidTools].
    rewrite Hlook.
    replace (S (length pre)) with (length (pre ++ [t])%list)
      by (rewrite length_app; simpl; lia).
    assert (Htools' : tools = ((pre ++ [t]) ++ suf)%list)
      by (rewrite <- app_assoc; exact Htools).
    destruct (Server.map_index m t) eqn:Hm; cbn [negb].
    + rewrite (IH _ _ Htools'). rewrite filter_cons_False; [reflexivity|].
      rewrite Hm. discriminate.
    + rewrite (IH _ _ Htools'). rewrite filter_cons_True by exact Hm.
      now rewrite <- app_assoc.
Qed.

Lemma validate_loop_spec (tools : list string) :
  Server.validate_loop tools
  = Server.ValidateState tools (Server.build_validToolSet Server.ValidToolNames)
      (filter (fun t => t ∉ Server.ValidToolNames) tools).
Proof.
  unfold Server.validate_loop.
  rewrite (validate_loop_from tools [] tools); [|reflexivity].
  simpl. f_equal. apply list_filter_iff. intros t.
  rewrite <- validToolSet_spec.
  destruct (Server.map_index _ t); split; congruence.
Qed.

(** C10. ValidateEnabledTools returns nil exactly when every name of its
    argument is one of ValidToolNames; otherwise its error lists the
    names of the argument that are not, in the order they were given;
    and the argument is left as it was. *)
Theorem ValidateEnabledTools_spec (tools : list string) :
  (Server.ValidateEnabledTools tools = None
   <-> Forall (fun t => t ∈ Server.ValidToolNames) tools)
  /\ (Server.ValidateEnabledTools tools <> None ->
      Server.ValidateEnabledTools tools
      = Some ("invalid tool name(s): "
                ++ Go.Join (filter (fun t => t ∉ Server.ValidToolNames) tools) ", "
                ++ ". Valid tools are: " ++ Go.Join Server.ValidToolNames ", "))
  /\ snd (Server.ValidateEnabledTools_run tools) = tools.
Proof.
  unfold Server.ValidateEnabledTools, Server.ValidateEnabledTools_run.
  rewrite validate_loop_spec. cbn [fst snd Server.vs_invalidTools Server.vs_tools].
  repeat split.
  - intros Hnil.
    destruct (filter (fun t => t ∉ Server.ValidToolNames) tools) as [|x xs] eqn:Hf;
      [|discriminate].
    apply Forall_forall. intros t Hin.
    destruct (decide (t ∈ Server.ValidToolNames)) as [Hok|Hbad]; [assumption|].
    exfalso. eapply filter_nil_not_elem_of; [exact Hf | exact Hbad | exact Hin].
  - intros Hall.
    destruct (filter (fun t => t ∉ Server.ValidToolNames) tools) as [|x xs] eqn:Hf;
      [reflexivity|].
    assert (Hx : x ∈ filter (fun t => t ∉ Server.ValidToolNames) tools)
      by (rewrite Hf; left).
    apply list_elem_of_filter in Hx as [Hbad Hin].
    rewrite Forall_forall in Hall. exfalso. apply Hbad. now apply Hall.
  - intros Hne.
    destruct (filter (fun t => t ∉ Server.ValidToolNames) tools) as [|x xs] eqn:Hf;
      [contradiction|].
    reflexivity.
Qed.

Lemma ValidateEnabledTools_spec_witness :
  Server.ValidateEnabledTools ["saved_list"; "bogus"; "channels_list"; "nope"]
  = Some ("invalid tool name(s): bogus, nope. Valid tools are: "
            ++ Go.Join Server.ValidToolNames ", ").
Proof.
  rewrite (proj1 (proj2 (ValidateEnabledTools_spec
                           ["saved_list"; "bogus"; "channels_list"; "nope"]))).
  - reflexivity.
  - vm_compute. discriminate.
Defined.

(** ** The tool table *)

Lemma lookup_AddTool_if_ne (cond : bool) (name k : string) (h : Server.tool_handler)
      (s : gmap string Server.tool_handler) :
  name <> k -> Server.AddTool_if cond name h s !! k = s !! k.
Proof.
  intros Hne. unfold Server.AddTool_if, Server.AddTool.
  destruct cond; [now apply lookup_insert_ne | reflexivity].
Qed.

Lemma lookup_AddTool_if_eq (cond : bool) (name : string) (h : Server.tool_handler)
      (s : gmap string Server.tool_handler) :
  Server.AddTool_if cond name h s !! name = if cond then Some h else s !! name.
Proof.
  unfold Server.AddTool_if, Server.AddTool.
  destruct cond; [apply lookup_insert_eq | reflexivity].
Qed.

(** The search tool is in the table exactly when the one registration
    that can put it there ran. *)
Lemma register_tools_search (c : Server.config) :
  Server.register_tools c !! Server.ToolConversationsSearchMessages
  = if negb (Server.IsBotToken c)
       && Server.shouldAddTool (Server.environ c) Server.ToolConversationsSearchMessages
                               (Server.enabledTools c) ""
    then Some Server.ConversationsSearchHandler
    else None.
Proof.
  unfold Server.register_tools.
  repeat (rewrite lookup_AddTool_if_ne by discriminate).
  unfold Server.AddTool at 1. rewrite lookup_insert_ne by discriminate.
  rewrite lookup_AddTool_if_eq.
  repeat (rewrite lookup_AddTool_if_ne by discriminate).
  rewrite lookup_empty.
  now destruct (negb _ && _).
Qed.

(** C1. With a bot token the message-search tool is not in the tool
    table, whatever the allow-list and the environment are; with any
    other credential it is there exactly when the default gating admits
    it, that is when the allow-list is empty or names it. *)
Theorem search_tool_registration (c : Server.config) :
  (Server.IsBotToken c = true ->
   Server.register_tools c !! "conversations_search_messages" = None)
  /\ (Server.IsBotToken c = false ->
      (Server.register_tools c !! "conversations_search_messages"
       = Some Server.ConversationsSearchHandler
       <-> Server.shouldAddTool (Server.environ c) "conversations_search_messages"
                                (Server.enabledTools c) "" = true)
      /\ (Server.register_tools c !! "conversations_search_messages" <> None
          <-> Server.enabledTools c = []
              \/ "conversations_search_messages" ∈ Server.enabledTools c)).
Proof.
  change "conversations_search_messages" with Server.ToolConversationsSearchMessages.
  rewrite register_tools_search.
  split; [intros -> | intros ->]; cbn [negb andb]; [reflexivity|].
  pose proof (shouldAddTool_default_gate
    (Server.environ c) Server.ToolConversationsSearchMessages
    (Server.enabledTools c)) as Hgate.
  destruct (Server.shouldAddTool _ _ _ "") eqn:Hs.
  - split; [split; reflexivity|]. split; [intros _; now apply Hgate | discriminate].
  - split; [split; discriminate|]. split; [contradiction|].
    intros Hadm. apply Hgate in Hadm. discriminate Hadm.
Qed.

Lemma search_tool_registration_witness :
  Server.register_tools
    (Server.Config true ["conversations_search_messages"]
                   {["SLACK_MCP_ADD_MESSAGE_TOOL" := "true"]})
    !! "conversations_search_messages" = None.
Proof.
  apply (proj1 (search_tool_registration
                  (Server.Config true ["conversations_search_messages"]
                                 {["SLACK_MCP_ADD_MESSAGE_TOOL" := "true"]}))).
  reflexivity.
Defined.

(** The gate reads the environment only through [os.Getenv]. *)
Lemma shouldAddTool_env_ext (env1 env2 : gmap string string) (name : string)
      (enabledTools : list string) (E : string) :
  (forall k, Go.Getenv env1 k = Go.Getenv env2 k) ->
  Server.shouldAddTool env1 name enabledTools E
  = Server.shouldAddTool env2 name enabledTools E.
Proof. intros Henv. unfold Server.shouldAddTool. now rewrite Henv. Qed.

(** C6. Two configurations with the same credential kind, the same
    allow-list and environments that answer every [os.Getenv] alike get
    the same tool table, and every gate decides alike. *)
Theorem registration_deterministic (c1 c2 : Server.config) :
  Server.IsBotToken c1 = Server.IsBotToken c2 ->
  Server.enabledTools c1 = Server.enabledTools c2 ->
  (forall k, Go.Getenv (Server.environ c1) k = Go.Getenv (Server.environ c2) k) ->
  Server.register_tools c1 = Server.register_tools c2
  /\ (forall name E,
         Server.shouldAddTool (Server.environ c1) name (Server.enabledTools c1) E
         = Server.shouldAddTool (Server.environ c2) name (Server.enabledTools c2) E).
Proof.
  destruct c1 as [bot1 tools1 env1], c2 as [bot2 tools2 env2].
  cbn [Server.IsBotToken Server.enabledTools Server.environ].
  intros -> -> Henv. split.
  - unfold Server.register_tools.
    cbn [Server.IsBotToken Server.enabledTools Server.environ].
    now rewrite !(shouldAddTool_env_ext env1 env2 _ _ _ Henv).
  - intros name E. now apply shouldAddTool_env_ext.
Qed.

Lemma registration_deterministic_witness :
  Server.register_tools (Server.Config false [] ∅)
  = Server.register_tools
      (Server.Config false [] {["SLACK_MCP_REACTION_TOOL" := ""]}).
Proof.
  apply (registration_deterministic
           (Server.Config false [] ∅)
           (Server.Config false [] {["SLACK_MCP_REACTION_TOOL" := ""]})).
  - reflexivity.
  - reflexivity.
  - intros k. unfold Go.Getenv. cbn [Server.environ].
    destruct (decide (k = "SLACK_MCP_REACTION_TOOL")) as [->|Hne].
    + now rewrite lookup_empty, lookup_singleton_eq.
    + rewrite lookup_empty, lookup_singleton_ne by congruence. reflexivity.
Defined.

(** ** The error-recovery middleware *)

Lemma isSlackAuthError_spec (msg : string) :
  Server.isSlackAuthError msg = true
  <-> (exists pre post, msg = pre ++ "invalid_auth" ++ post)
      \/ (exists pre post, msg = pre ++ "not_authed" ++ post)
      \/ (exists pre post, msg = pre ++ "token_expired" ++ post)
      \/ (exists pre post, msg = pre ++ "token_revoked" ++ post).
Proof.
  unfold Server.isSlackAuthError, Server.authErrors. cbn [Server.contains_any].
  rewrite <- !Contains_spec.
  destruct (Go.Contains msg "invalid_auth"); [tauto|].
  destruct (Go.Contains msg "not_authed"); [tauto|].
  destruct (Go.Contains msg "token_expired"); [tauto|].
  destruct (Go.Contains msg "token_revoked"); [tauto|].
  split; [discriminate | intros [H|[H|[H|H]]]; discriminate H].
Qed.

(** The augmented message is longer than the message it wraps. *)
Lemma auth_failed_message_neq (e : string) : Server.auth_failed_message e <> e.
Proof.
  intros Heq. apply (f_equal String.length) in Heq.
  unfold Server.auth_failed_message in Heq.
  rewrite !string_length_app in Heq. simpl in Heq. lia.
Qed.

(** C2. When the handler returns an error, the middleware returns a tool
    result with isError set and a nil error; the text of the result is
    the token-refresh message around the handler's error text exactly
    when that text contains invalid_auth, not_authed, token_expired or
    token_revoked, and it is the handler's error text otherwise. *)
Theorem error_recovery_converts_errors {W : Type} (next : Server.ToolHandlerFunc W)
        (req : Server.CallToolRequest) (w w' : W)
        (res : option Server.CallToolResult) (e : string) :
  next req w = ((res, Some e), w') ->
  let auth_error :=
    (exists pre post, e = pre ++ "invalid_auth" ++ post)
    \/ (exists pre post, e = pre ++ "not_authed" ++ post)
    \/ (exists pre post, e = pre ++ "token_expired" ++ post)
    \/ (exists pre post, e = pre ++ "token_revoked" ++ post) in
  let augmented :=
    "Slack authentication failed (" ++ e
      ++ "). Your xoxc/xoxd browser session tokens have expired. Run the /slack-token-refresh skill to automatically refresh them." in
  exists message,
    Server.buildErrorRecoveryMiddleware next req w
    = ((Some (Server.MkCallToolResult [message] true), None), w')
    /\ (message = augmented <-> auth_error)
    /\ (~ auth_error -> message = e).
Proof.
  intros Hnext auth_error augmented.
  unfold Server.buildErrorRecoveryMiddleware. rewrite Hnext.
  change augmented with (Server.auth_failed_message e).
  pose proof (isSlackAuthError_spec e) as Hspec. fold auth_error in Hspec.
  destruct (Server.isSlackAuthError e) eqn:Hauth.
  - exists (Server.auth_failed_message e). split; [reflexivity|]. split.
    + split; [intros _; now apply Hspec | reflexivity].
    + intros Hno. exfalso. apply Hno. now apply Hspec.
  - exists e. split; [reflexivity|]. split.
    + split.
      * intros Heq. exfalso. now apply (auth_failed_message_neq e).
      * intros Hyes. apply Hspec in Hyes. discriminate Hyes.
    + reflexivity.
Qed.

Lemma error_recovery_converts_errors_witness :
  Server.buildErrorRecoveryMiddleware
    (fun _ (w : unit) => ((None, Some "invalid_auth"), w))
    (Server.MkCallToolRequest "saved_list" ∅) tt
  = ((Some (Server.MkCallToolResult
       ["Slack authentication failed (invalid_auth). Your xoxc/xoxd browser session tokens have expired. Run the /slack-token-refresh skill to automatically refresh them."]
       true), None), tt).
Proof.
  destruct (error_recovery_converts_errors
              (fun _ (w : unit) => ((None, Some "invalid_auth"), w))
              (Server.MkCallToolRequest "saved_list" ∅) tt tt None "invalid_auth"
              eq_refl) as (message & Hrun & Hiff & _).
  rewrite Hrun.
  assert (Hm : message
               = "Slack authentication failed (" ++ "invalid_auth"
                   ++ "). Your xoxc/xoxd browser session tokens have expired. Run the /slack-token-refresh skill to automatically refresh them.")
    by (apply Hiff; left; now exists "", "").
  rewrite Hm. reflexivity.
Defined.

(** ** The process exits only at startup *)

Lemma NewMCPServer_fatal_iff (Workspace : string -> string + string)
      (c : Server.config) (authTest : Server.AuthTestResponse + string) :
  (exists msg cause, Server.NewMCPServer Workspace c authTest = Server.Fatal msg cause)
  <-> (exists err, authTest = inr err)
      \/ (exists ar err, authTest = inl ar /\ Workspace (Server.URL ar) = inr err).
Proof.
  unfold Server.NewMCPServer. split.
  - intros (msg & cause & Hf). destruct authTest as [ar|err]; [|left; now exists err].
    destruct (Workspace (Server.URL ar)) as [ws|err] eqn:Hws; [discriminate Hf|].
    right. now exists ar, err.
  - intros [[err ->] | (ar & err & -> & Hws)]; [now eexists _, _|].
    rewrite Hws. now eexists _, _.
Qed.

(** On handlers that return, and with an authentication middleware that
    lets the call through, the stack with the recovery middleware is the
    stack of the three middlewares of this repository. *)
Lemma server_stack_returning {W : Type} (h : Server.ToolHandlerFunc W)
      (req : Server.CallToolRequest) (w : W) :
  Lifecycle.server_stack (fun handler => handler) (Lifecycle.returning h) req w
  = Lifecycle.returning (Server.middleware_stack (fun handler => handler) h) req w.
Proof.
  unfold Lifecycle.server_stack, Lifecycle.WithRecovery,
    Lifecycle.buildErrorRecoveryMiddleware, Lifecycle.buildLoggerMiddleware,
    Lifecycle.returning, Server.middleware_stack,
    Server.buildErrorRecoveryMiddleware, Server.buildLoggerMiddleware.
  destruct (h req w) as [[res [e|]] w']; reflexivity.
Qed.

Section ServingFacts.

Context {W : Type}.
Variable handler_code : Server.tool_handler -> Lifecycle.HandlerFunc W.
Variable authMiddleware : Lifecycle.Middleware W.

(** The three ways a call can end inside the stack, and what the stack
    makes of each. *)
Lemma server_stack_cases (handler : Lifecycle.HandlerFunc W)
      (req : Server.CallToolRequest) (w : W) :
  Lifecycle.server_stack authMiddleware handler req w
  = match authMiddleware handler req w with
    | (Lifecycle.Returned (res, Some e), w') =>
        (Lifecycle.Returned
           (Some (Server.MkCallToolResult
                    [if Server.isSlackAuthError e
                     then Server.auth_failed_message e else e] true), None), w')
    | (Lifecycle.Returned (res, None), w') => (Lifecycle.Returned (res, None), w')
    | (Lifecycle.Panicked value, w') =>
        (Lifecycle.Returned
           (None, Some ("panic recovered in " ++ Server.Name req
                          ++ " tool handler: " ++ value)), w')
    end.
Proof.
  unfold Lifecycle.server_stack, Lifecycle.WithRecovery,
    Lifecycle.buildErrorRecoveryMiddleware, Lifecycle.buildLoggerMiddleware.
  destruct (authMiddleware handler req w) as [[[res [e|]]|value] w']; reflexivity.
Qed.

(** Inside the stack of NewMCPServer no call ends the process. *)
Lemma call_tool_answered (srv : Server.MCPServer) (req : Server.CallToolRequest)
      (w : W) :
  exists r, fst (Lifecycle.call_tool (Lifecycle.server_stack authMiddleware)
                   handler_code srv req w)
            = Lifecycle.Answered r.
Proof.
  unfold Lifecycle.call_tool.
  destruct (Server.tools srv !! Server.Name req) as [h|]; [|now eexists].
  rewrite server_stack_cases.
  destruct (authMiddleware (handler_code h) req w) as [[[res [e|]]|value] w'];
    now eexists.
Qed.

Lemma serve_never_dies (srv : Server.MCPServer) (reqs : list Server.CallToolRequest)
      (w : W) :
  exists rs w',
    Lifecycle.serve (Lifecycle.server_stack authMiddleware) handler_code srv reqs w
    = (rs, None, w')
    /\ length rs = length reqs.
Proof.
  revert w. induction reqs as [|req reqs IH]; intros w; cbn [Lifecycle.serve].
  - now exists [], w.
  - destruct (call_tool_answered srv req w) as [r Hr].
    destruct (Lifecycle.call_tool _ handler_code srv req w) as [answer w0].
    cbn [fst] in Hr. subst answer.
    destruct (IH w0) as (rs & w' & Hserve & Hlen). rewrite Hserve.
    exists (r :: rs), w'. split; [reflexivity | simpl; now rewrite Hlen].
Qed.

(** Without the recovery middleware a panic of a handler would end the
    process: the stack of the three other middlewares lets it through. *)
Lemma unrecovered_panic_ends_process (srv : Server.MCPServer)
      (req : Server.CallToolRequest) (w w' : W) (h : Server.tool_handler)
      (value : string) :
  Server.tools srv !! Server.Name req = Some h ->
  authMiddleware (handler_code h) req w = (Lifecycle.Panicked value, w') ->
  Lifecycle.call_tool
    (fun handler =>
       Lifecycle.buildErrorRecoveryMiddleware
         (Lifecycle.buildLoggerMiddleware (authMiddleware handler)))
    handler_code srv req w
  = (Lifecycle.Crashed value, w').
Proof.
  intros Hreg Hpanic. unfold Lifecycle.call_tool. rewrite Hreg.
  unfold Lifecycle.buildErrorRecoveryMiddleware, Lifecycle.buildLoggerMiddleware.
  now rewrite Hpanic.
Qed.

End ServingFacts.




(** ** SavedCompleteHandler *)

(** C8. SavedCompleteHandler checks its parameters before it calls the
    backend: an empty channel gives the error "channel is required" and,
    the channel being there, an empty ts gives "ts is required", in both
    cases with the backend untouched; with both parameters there and a
    backend call that succeeds, the result is the text
    "Item marked as complete.". *)
Theorem SavedCompleteHandler_validates_first {W : Type} `{Handler.SlackAPI W}
        (request : Server.CallToolRequest) (w : W) :
  let channel := Server.GetString request "channel" "" in
  let ts := Server.GetString request "ts" "" in
  (channel = "" ->
   Handler.SavedCompleteHandler request w = ((None, Some "channel is required"), w))
  /\ (channel <> "" -> ts = "" ->
      Handler.SavedCompleteHandler request w = ((None, Some "ts is required"), w))
  /\ (channel = "" \/ ts = "" ->
      exists e, Handler.SavedCompleteHandler request w = ((None, Some e), w)
                /\ (e = "channel is required" \/ e = "ts is required"))
  /\ (channel <> "" -> ts <> "" ->
      forall w', Handler.SavedCompleteContext channel ts w = (None, w') ->
      Handler.SavedCompleteHandler request w
      = ((Some (Server.MkCallToolResult ["Item marked as complete."] false), None), w')).
Proof.
  intros channel ts. unfold Handler.SavedCompleteHandler.
  fold channel. fold ts.
  destruct (String.eqb_spec channel "") as [Hc|Hc];
    destruct (String.eqb_spec ts "") as [Ht|Ht];
    repeat split; intros; try contradiction; try reflexivity;
    try (eexists; split; [reflexivity | tauto]);
    try (exfalso; tauto).
  match goal with Hcall : Handler.SavedCompleteContext _ _ _ = _ |- _ => now rewrite Hcall end.
Qed.

Lemma SavedCompleteHandler_validates_first_witness :
  Handler.SavedCompleteHandler
    (Server.MkCallToolRequest "saved_complete"
       {["channel" := Server.ArgString "C1234567890"]})
    (Handler.MkScripted [] [] [] (fun _ => inl []) (fun _ _ => None) (inr "offline"))
  = ((None, Some "ts is required"),
     Handler.MkScripted [] [] [] (fun _ => inl []) (fun _ _ => None) (inr "offline")).
Proof.
  apply (SavedCompleteHandler_validates_first
           (Server.MkCallToolRequest "saved_complete"
              {["channel" := Server.ArgString "C1234567890"]})
           (Handler.MkScripted [] [] [] (fun _ => inl []) (fun _ _ => None)
                               (inr "offline"))).
  - vm_compute. discriminate.
  - reflexivity.
Defined.

(** ** The regular-expression matcher *)

Lemma keep_some (a : Regexp.atom) (c : ascii) (r : option Regexp.matched)
      (g rest : string) :
  Regexp.keep a c r = Some (g, rest) -> exists g', r = Some (g', rest).
Proof.
  destruct r as [[g' rest']|]; simpl; [|discriminate].
  intros Heq. injection Heq as _ ->. now exists g'.
Qed.

Section Consumption.

Variable a : Regexp.atom.
Variable k : string -> option Regexp.matched.
Hypothesis k_consumes :
  forall s g rest, k s = Some (g, rest) -> String.length rest <= String.length s.

Lemma one_consumes (s g rest : string) :
  Regexp.one a k s = Some (g, rest) -> String.length rest < String.length s.
Proof.
  destruct s as [|c s]; simpl; [discriminate|].
  destruct (Regexp.class a c); [|discriminate].
  intros Hk. apply keep_some in Hk as [g' Hk]. apply k_consumes in Hk. lia.
Qed.

Lemma star_consumes (s g rest : string) :
  Regexp.star a k s = Some (g, rest) -> String.length rest <= String.length s.
Proof.
  revert g rest. induction s as [|c s IH]; intros g rest; simpl.
  - apply k_consumes.
  - destruct (Regexp.class a c); [|apply (k_consumes (String c s))].
    destruct (Regexp.keep a c (Regexp.star a k s)) as [[g1 r1]|] eqn:Hkeep; simpl.
    + intros Heq. injection Heq as <- <-.
      apply keep_some in Hkeep as [g' Hs]. apply IH in Hs. lia.
    + apply (k_consumes (String c s)).
Qed.

End Consumption.

Lemma match_here_consumes (re : Regexp.regexp) (s g rest : string) :
  Regexp.match_here re s = Some (g, rest) -> String.length rest <= String.length s.
Proof.
  revert s g rest. induction re as [|a re IH]; intros s g rest; cbn [Regexp.match_here].
  - intros Heq. now injection Heq as _ <-.
  - destruct (Regexp.rep a).
    + intros Hone. apply one_consumes in Hone; [lia | exact IH].
    + destruct (Regexp.one a (Regexp.match_here re) s) as [[g1 r1]|] eqn:Hone; simpl.
      * intros Heq. injection Heq as <- <-.
        apply one_consumes in Hone; [lia | exact IH].
      * apply IH.
    + apply star_consumes. exact IH.
    + intros Hone. apply one_consumes in Hone; [lia|].
      intros s' g' rest'. apply star_consumes. exact IH.
Qed.

Lemma match_here_One (a : Regexp.atom) (re : Regexp.regexp) (s : string) :
  Regexp.rep a = Regexp.One ->
  Regexp.match_here (a :: re) s = Regexp.one a (Regexp.match_here re) s.
Proof. intros Hrep. cbn [Regexp.match_here]. now rewrite Hrep. Qed.

(** A match of slackLinkRe takes at least its opening bracket. *)
Lemma slackLinkRe_consumes (s g rest : string) :
  Regexp.match_here Handler.slackLinkRe s = Some (g, rest) ->
  String.length rest < String.length s.
Proof.
  unfold Handler.slackLinkRe. rewrite match_here_One by reflexivity.
  apply one_consumes. intros s' g' rest'. apply match_here_consumes.
Qed.

Section Replace.

Variable re : Regexp.regexp.
Hypothesis re_consumes :
  forall s g rest, Regexp.match_here re s = Some (g, rest) ->
                   String.length rest < String.length s.

(** Any fuel that covers the length of the input gives the same text:
    the loop ends before it runs out. *)
Lemma replace_fuel (n m : nat) (s : string) :
  String.length s <= n -> String.length s <= m ->
  Regexp.replace_group1 re n s = Regexp.replace_group1 re m s.
Proof.
  revert m s. induction n as [|n IH]; intros m s Hn Hm.
  - destruct s; [|simpl in Hn; lia].
    destruct m as [|m]; [reflexivity|]. cbn [Regexp.replace_group1].
    destruct (Regexp.match_here re "") as [[g rest]|] eqn:Hmatch; [|reflexivity].
    apply re_consumes in Hmatch. simpl in Hmatch. lia.
  - destruct m as [|m].
    + destruct s; [|simpl in Hm; lia]. cbn [Regexp.replace_group1].
      destruct (Regexp.match_here re "") as [[g rest]|] eqn:Hmatch; [|reflexivity].
      apply re_consumes in Hmatch. simpl in Hmatch. lia.
    + cbn [Regexp.replace_group1].
      destruct (Regexp.match_here re s) as [[g rest]|] eqn:Hmatch.
      * apply re_consumes in Hmatch. f_equal. apply IH; lia.
      * destruct s as [|c s]; [reflexivity|]. simpl in Hn, Hm.
        f_equal. apply IH; lia.
Qed.

Lemma ReplaceAll_skip (c : ascii) (s : string) :
  Regexp.match_here re (String c s) = None ->
  Regexp.ReplaceAllString_group1 re (String c s)
  = String c (Regexp.ReplaceAllString_group1 re s).
Proof.
  intros Hnone. unfold Regexp.ReplaceAllString_group1.
  cbn [String.length Regexp.replace_group1]. now rewrite Hnone.
Qed.

Lemma ReplaceAll_match (s g rest : string) :
  Regexp.match_here re s = Some (g, rest) ->
  Regexp.ReplaceAllString_group1 re s
  = g ++ Regexp.ReplaceAllString_group1 re rest.
Proof.
  intros Hmatch. pose proof (re_consumes _ _ _ Hmatch) as Hlt.
  unfold Regexp.ReplaceAllString_group1.
  destruct s as [|c s]; [simpl in Hlt; lia|].
  cbn [String.length Regexp.replace_group1]. rewrite Hmatch.
  f_equal. simpl in Hlt. apply replace_fuel; lia.
Qed.

End Replace.

Lemma all_chars_ext (f g : ascii -> bool) (s : string) :
  (forall a, f a = g a) ->
  SlackMarkup.all_chars f s = SlackMarkup.all_chars g s.
Proof.
  intros Hfg. induction s as [|a s IH]; simpl; [reflexivity|].
  now rewrite Hfg, IH.
Qed.

Lemma all_chars_and (f g : ascii -> bool) (s : string) :
  SlackMarkup.all_chars f s = true -> SlackMarkup.all_chars g s = true ->
  SlackMarkup.all_chars (fun a => f a && g a) s = true.
Proof.
  induction s as [|a s IH]; simpl; [reflexivity|].
  intros [Hf Hfs]%andb_prop [Hg Hgs]%andb_prop.
  now rewrite Hf, Hg, IH.
Qed.

(** A greedy repetition takes a whole stretch of its class when the
    character after the stretch is outside the class and the rest of the
    pattern matches from there. *)
Lemma star_greedy (a : Regexp.atom) (k : string -> option Regexp.matched)
      (u rest g r : string) :
  SlackMarkup.all_chars (Regexp.class a) u = true ->
  match rest with
  | EmptyString => True
  | String c _ => Regexp.class a c = false
  end ->
  k rest = Some (g, r) ->
  Regexp.star a k (u ++ rest)
  = Some (if Regexp.in_group a then u ++ g else g, r).
Proof.
  intros Hu Hrest Hk. induction u as [|c u IH].
  - rewrite string_app_nil_l.
    destruct rest as [|c rest]; simpl.
    + rewrite Hk. now destruct (Regexp.in_group a).
    + rewrite Hrest, Hk. now destruct (Regexp.in_group a).
  - simpl in Hu. apply andb_prop in Hu as [Hc Hu].
    rewrite string_app_cons. cbn [Regexp.star]. rewrite Hc, (IH Hu).
    unfold Regexp.keep, Regexp.or_else.
    destruct (Regexp.in_group a); [now rewrite string_app_cons | reflexivity].
Qed.

(** ** slackLinkRe on Slack markup *)

Lemma free_of_not_bar_close (url : string) :
  SlackMarkup.free_of "|" url = true -> SlackMarkup.free_of ">" url = true ->
  SlackMarkup.all_chars (Regexp.none_of ["|"; ">"]%char) url = true.
Proof.
  intros Hbar Hclose.
  rewrite (all_chars_ext _ (fun a => negb (Ascii.eqb a "|") && negb (Ascii.eqb a ">"))).
  - now apply all_chars_and.
  - intros a. cbn [Regexp.none_of]. now destruct (Ascii.eqb a "|"), (Ascii.eqb a ">").
Qed.

Lemma free_of_not_close (label : string) :
  SlackMarkup.free_of ">" label = true ->
  SlackMarkup.all_chars (Regexp.none_of [">"]%char) label = true.
Proof.
  intros Hclose.
  rewrite (all_chars_ext _ (fun a => negb (Ascii.eqb a ">"))); [exact Hclose|].
  intros a. cbn [Regexp.none_of]. now destruct (Ascii.eqb a ">").
Qed.

(** No match starts at a character other than the opening bracket, nor
    at the end of the text. *)
Lemma slackLinkRe_no_match (c : ascii) (s : string) :
  c <> "<"%char -> Regexp.match_here Handler.slackLinkRe (String c s) = None.
Proof.
  intros Hc. unfold Handler.slackLinkRe. rewrite match_here_One by reflexivity.
  cbn [Regexp.one Regexp.class]. unfold Regexp.is_char.
  now destruct (Ascii.eqb_spec c "<").
Qed.

Lemma slackLinkRe_no_match_end :
  Regexp.match_here Handler.slackLinkRe "" = None.
Proof. reflexivity. Qed.

(** The tail of the pattern, [[^>]*>], on a label and the closing bracket. *)
Lemma slackLinkRe_label (label post : string) :
  SlackMarkup.free_of ">" label = true ->
  Regexp.match_here (drop 3 Handler.slackLinkRe) (label ++ String ">" post)
  = Some ("", post).
Proof.
  intros Hlabel. cbn [drop Handler.slackLinkRe Regexp.match_here Regexp.rep].
  rewrite (star_greedy _ _ label (String ">" post) "" post).
  - reflexivity.
  - now apply free_of_not_close.
  - reflexivity.
  - reflexivity.
Qed.

(** The pattern after the URL, [\|?[^>]*>]. *)
Lemma slackLinkRe_after_url (label : option string) (post : string) :
  match label with Some l => SlackMarkup.free_of ">" l = true | None => True end ->
  Regexp.match_here (drop 2 Handler.slackLinkRe)
    (match label with
     | Some l => String "|" (l ++ String ">" post)
     | None => String ">" post
     end)
  = Some ("", post).
Proof.
  intros Hlabel.
  change (drop 2 Handler.slackLinkRe)
    with (Regexp.Atom (Regexp.is_char "|") Regexp.Opt false
            :: drop 3 Handler.slackLinkRe).
  cbn [Regexp.match_here Regexp.rep].
  destruct label as [l|].
  - cbn [Regexp.one Regexp.class]. unfold Regexp.is_char.
    change (Ascii.eqb "|" "|") with true. cbv iota.
    rewrite (slackLinkRe_label l post Hlabel). reflexivity.
  - reflexivity.
Qed.

(** At a link the match is the whole link and group 1 is its URL. *)
Lemma slackLinkRe_link (url : string) (label : option string) (post : string) :
  SlackMarkup.well_formed (SlackMarkup.Link url label) = true ->
  Regexp.match_here Handler.slackLinkRe
    (SlackMarkup.write (SlackMarkup.Link url label) ++ post)
  = Some (url, post).
Proof.
  cbn [SlackMarkup.well_formed].
  intros [[[Hne Hbar]%andb_prop Hclose]%andb_prop Hlabel]%andb_prop.
  destruct url as [|c url]; [discriminate Hne|].
  pose proof (free_of_not_bar_close _ Hbar Hclose) as Hurl.
  cbn [SlackMarkup.all_chars] in Hurl. apply andb_prop in Hurl as [Hc Hurl].
  set (after := match label with
                | Some l => String "|" (l ++ String ">" post)
                | None => String ">" post
                end).
  assert (Htext : SlackMarkup.write (SlackMarkup.Link (String c url) label) ++ post
                  = String "<" (String c (url ++ after))).
  { unfold after. destruct label as [l|]; cbn [SlackMarkup.write];
      repeat first [ rewrite string_app_assoc
                   | rewrite string_app_cons
                   | rewrite string_app_nil_l ];
      reflexivity. }
  rewrite Htext.
  change Handler.slackLinkRe
    with (Regexp.Atom (Regexp.is_char "<") Regexp.One false
            :: Regexp.Atom (Regexp.none_of ["|"; ">"]%char) Regexp.Plus true
            :: drop 2 Handler.slackLinkRe).
  cbn [Regexp.match_here Regexp.rep Regexp.one Regexp.class].
  unfold Regexp.is_char at 1. change (Ascii.eqb "<" "<") with true. cbv iota.
  cbn [Regexp.class] in Hc, Hurl. rewrite Hc.
  rewrite (star_greedy _ _ url after "" post).
  - cbn [Regexp.keep Regexp.in_group]. now rewrite string_app_nil_r.
  - exact Hurl.
  - unfold after. destruct label; reflexivity.
  - apply slackLinkRe_after_url. destruct label as [l|]; [|exact I].
    now destruct (SlackMarkup.free_of ">" l).
Qed.

Lemma ReplaceAll_plain (t s : string) :
  SlackMarkup.free_of "<" t = true ->
  Regexp.ReplaceAllString_group1 Handler.slackLinkRe (t ++ s)
  = t ++ Regexp.ReplaceAllString_group1 Handler.slackLinkRe s.
Proof.
  unfold SlackMarkup.free_of. induction t as [|c t IH]; intros Hfree.
  - reflexivity.
  - cbn [SlackMarkup.all_chars] in Hfree. apply andb_prop in Hfree as [Hc Hfree].
    rewrite !string_app_cons.
    rewrite ReplaceAll_skip.
    + now rewrite (IH Hfree).
    + apply slackLinkRe_no_match. intros ->. discriminate Hc.
Qed.

(** On well-formed Slack markup the replacement leaves the plain
    stretches alone and puts the URL in place of every link. *)
Lemma ReplaceAll_markup (segs : list SlackMarkup.segment) :
  forallb SlackMarkup.well_formed segs = true ->
  Regexp.ReplaceAllString_group1 Handler.slackLinkRe (SlackMarkup.markup segs)
  = SlackMarkup.bare_text segs.
Proof.
  induction segs as [|seg segs IH]; intros Hwf.
  - reflexivity.
  - cbn [forallb] in Hwf. apply andb_prop in Hwf as [Hseg Hwf].
    cbn [SlackMarkup.markup SlackMarkup.bare_text].
    destruct seg as [t | url label].
    + cbn [SlackMarkup.write SlackMarkup.bare].
      rewrite (ReplaceAll_plain _ _ Hseg). now rewrite (IH Hwf).
    + rewrite (ReplaceAll_match _ slackLinkRe_consumes _ url (SlackMarkup.markup segs)).
      * cbn [SlackMarkup.bare]. now rewrite (IH Hwf).
      * now apply slackLinkRe_link.
Qed.

Lemma ReplaceAll1_newlines (s : string) :
  Go.ReplaceAll1 s Handler.newline " " = SlackMarkup.newlines_to_spaces s.
Proof.
  induction s as [|a s IH]; [reflexivity|].
  cbn [Go.ReplaceAll1 SlackMarkup.newlines_to_spaces]. rewrite IH.
  unfold Handler.newline. now destruct (Ascii.eqb a (ascii_of_nat 10)).
Qed.

(** ** fetchMessageText *)

(** C9. fetchMessageText always returns: the pair of empty strings when
    the history call fails or returns no message; otherwise the author
    and the text of the first message, the author being the RealName of
    the users cache when the cache has the user and the raw user ID
    when there is no cache or no entry, and the text being the message
    with every link [<url|label>] or [<url>] reduced to its URL and every
    newline turned into a space. *)
Theorem fetchMessageText_spec {W : Type} `{Handler.SlackAPI W}
        (channelID ts : string)
        (usersCache : option (gmap string Handler.SlackUser)) (w : W) :
  let answer :=
    Handler.GetConversationHistoryContext
      (Handler.MkHistoryParameters channelID ts ts 1 true) w in
  match fst answer with
  | inr _ | inl [] =>
      Handler.fetchMessageText channelID ts usersCache w = (("", ""), snd answer)
  | inl (msg :: _) =>
      exists userName text,
        Handler.fetchMessageText channelID ts usersCache w
        = ((userName, text), snd answer)
        /\ (forall users u,
               usersCache = Some users ->
               users !! Handler.msg_User msg = Some u ->
               userName = Handler.RealName u)
        /\ (usersCache = None
            \/ (exists users, usersCache = Some users
                              /\ users !! Handler.msg_User msg = None) ->
            userName = Handler.msg_User msg)
        /\ (forall segs,
               forallb SlackMarkup.well_formed segs = true ->
               Handler.msg_Text msg = SlackMarkup.markup segs ->
               text = SlackMarkup.newlines_to_spaces (SlackMarkup.bare_text segs))
  end.
Proof.
  intros answer. unfold Handler.fetchMessageText. fold answer.
  destruct answer as [[[|msg msgs]|err] w']; cbn [fst snd]; try reflexivity.
  eexists _, _. split; [reflexivity|]. split; [|split].
  - intros users u -> Hu. now rewrite Hu.
  - intros [-> | (users & -> & Hu)]; [reflexivity | now rewrite Hu].
  - intros segs Hwf ->. rewrite ReplaceAll1_newlines.
    now rewrite (ReplaceAll_markup segs Hwf).
Qed.

Lemma fetchMessageText_spec_witness :
  let w := Handler.MkScripted [] [] []
             (fun _ => inl [Handler.MkMessage "U1"
                              ("see <https://a.b|site>"
                                 ++ String Handler.newline "now <@U2>")])
             (fun _ _ => None) (inr "offline") in
  Handler.fetchMessageText "C1" "1700000000.000100"
                           (Some {["U1" := Handler.MkUser "Ann"]}) w
  = (("Ann", "see https://a.b now @U2"), w).
Proof.
  intros w.
  pose proof (fetchMessageText_spec "C1" "1700000000.000100"
                (Some {["U1" := Handler.MkUser "Ann"]}) w) as Hspec.
  cbv zeta in Hspec. cbn [fst snd Handler.GetConversationHistoryContext
                          Handler.scripted_api Handler.history_of w] in Hspec.
  destruct Hspec as (userName & text & Hrun & Hcached & _ & Htext).
  rewrite Hrun.
  rewrite (Hcached {["U1" := Handler.MkUser "Ann"]} (Handler.MkUser "Ann")
             eq_refl eq_refl).
  rewrite (Htext [SlackMarkup.Plain "see ";
                  SlackMarkup.Link "https://a.b" (Some "site");
                  SlackMarkup.Plain (String Handler.newline "now ");
                  SlackMarkup.Link "@U2" None] eq_refl eq_refl).
  reflexivity.
Defined.

(** ** SavedListHandler: pagination *)

Section Pagination.

Import Handler.

(** On pages that all but the last carry a next cursor, the loop makes
    one call per page, each with the cursor of the page before, and
    returns the items of all pages in order. *)
Lemma fetch_pages_scripted (init : list SavedListResponse) :
  forall (last : SavedListResponse) (more : list (SavedListResponse + string))
         (fuel : nat) (cursor : string) (acc : list SavedItem) (w : scripted),
    Forall (fun p => NextCursor p <> "") init ->
    NextCursor last = "" ->
    pending w = (map inl (init ++ [last]) ++ more)%list ->
    length init < fuel ->
    fetch_pages fuel cursor acc w
    = Some (inl (acc ++ concat (map SavedItems (init ++ [last])))%list,
            after_calls w (cursor :: map NextCursor init) more).
Proof.
  induction init as [|p init IH]; intros last more fuel cursor acc w Hinit Hlast Hpend Hfuel.
  - destruct fuel as [|fuel]; [lia|]. cbn [fetch_pages].
    cbn [SavedListContext scripted_api]. unfold scripted_SavedList.
    rewrite Hpend. cbn [app map concat]. rewrite Hlast. cbn [String.eqb].
    now rewrite app_nil_r.
  - destruct fuel as [|fuel]; [simpl in Hfuel; lia|]. cbn [fetch_pages].
    cbn [SavedListContext scripted_api]. unfold scripted_SavedList.
    rewrite Hpend. cbn [app map].
    apply Forall_cons in Hinit as [Hp Hinit].
    apply String.eqb_neq in Hp. rewrite Hp.
    rewrite (IH last more); [| assumption | assumption | reflexivity | simpl in Hfuel; lia].
    unfold after_calls. cbn [asked completed history_of complete_of auth_of concat].
    now rewrite <- !app_assoc.
Qed.

(** The loop is still running as long as no page without a next
    cursor has come. *)
Lemma fetch_pages_running (init : list SavedListResponse) :
  forall (rest : list (SavedListResponse + string))
         (fuel : nat) (cursor : string) (acc : list SavedItem) (w : scripted),
    Forall (fun p => NextCursor p <> "") init ->
    pending w = (map inl init ++ rest)%list ->
    fuel <= length init ->
    fetch_pages fuel cursor acc w = None.
Proof.
  induction init as [|p init IH]; intros rest fuel cursor acc w Hinit Hpend Hfuel.
  - simpl in Hfuel. now replace fuel with 0 by lia.
  - destruct fuel as [|fuel]; [reflexivity|]. cbn [fetch_pages].
    cbn [SavedListContext scripted_api]. unfold scripted_SavedList.
    rewrite Hpend. cbn [app map].
    apply Forall_cons in Hinit as [Hp Hinit].
    apply String.eqb_neq in Hp. rewrite Hp.
    apply (IH rest); [assumption | reflexivity | simpl in Hfuel; lia].
Qed.

Variable formatRFC3339 : Z -> string.

Lemma fetchMessageText_scripted (channelID ts : string)
      (usersCache : option (gmap string SlackUser)) (w : scripted) :
  snd (fetchMessageText channelID ts usersCache w) = w.
Proof.
  unfold fetchMessageText. cbn [GetConversationHistoryContext scripted_api].
  now destruct (history_of w _) as [[|msg msgs]|err].
Qed.

(** Every item gives one row, in order, that carries its channel, its
    timestamp and its state. *)
Lemma build_rows_scripted (workspaceURL : string) (c : caches)
      (items : list SavedItem) :
  forall (rows : list SavedItemRow) (w : scripted),
  exists rows',
    build_rows formatRFC3339 workspaceURL c items rows w = ((rows ++ rows')%list, w)
    /\ map (fun r => (Channel r, Ts r, State r)) rows'
       = map (fun i => (ItemID i, item_Ts i, item_State i)) items.
Proof.
  induction items as [|item items IH]; intros rows w.
  - exists []. split; [now rewrite app_nil_r | reflexivity].
  - cbn [build_rows]. unfold build_row.
    pose proof (fetchMessageText_scripted (ItemID item) (item_Ts item)
                  (UsersCache c) w) as Hw.
    destruct (fetchMessageText (ItemID item) (item_Ts item) (UsersCache c) w)
      as [[msgUser msgText] w'].
    cbn [snd] in Hw. subst w'.
    match goal with
    | |- context [build_rows _ _ _ _ (rows ++ [?row])%list w] =>
        destruct (IH (rows ++ [row])%list w) as (rows' & Hrun & Hkeys);
        exists (row :: rows')
    end.
    split.
    + rewrite Hrun. now rewrite <- app_assoc.
    + cbn [map Channel Ts State]. now rewrite Hkeys.
Qed.

(** C5. On any sequence of pages of which the last is the first
    without a next cursor, the saved-items handler asks for the first
    page with the cursor of the request and for every further page
    with the next cursor of the page before, goes on as long as a
    page carries a next cursor, stops at the page that carries none
    without touching what the backend would answer after it, and
    produces one row per item of all the pages, in fetch order. *)
Theorem SavedList_pagination_complete
        (init : list SavedListResponse) (last : SavedListResponse)
        (more : list (SavedListResponse + string))
        (fuel : nat) (c : caches) (request : Server.CallToolRequest)
        (w : scripted) :
  Forall (fun p => NextCursor p <> "") init ->
  NextCursor last = "" ->
  pending w = (map inl (init ++ [last]) ++ more)%list ->
  length init < fuel ->
  let cursor := Server.GetString request "cursor" "" in
  let items := concat (map SavedItems (init ++ [last])) in
  let w' := after_calls w (cursor :: map NextCursor init) more in
  fetch_pages fuel cursor [] w = Some (inl items, w')
  /\ (forall fuel', fuel' <= length init -> fetch_pages fuel' cursor [] w = None)
  /\ exists rows,
      SavedList_rows formatRFC3339 fuel c request w = Some (inl rows, w')
      /\ map (fun r => (Channel r, Ts r, State r)) rows
         = map (fun i => (ItemID i, item_Ts i, item_State i)) items.
Proof.
  intros Hinit Hlast Hpend Hfuel cursor items w'.
  assert (Hfetch : fetch_pages fuel cursor [] w = Some (inl items, w'))
    by (now apply (fetch_pages_scripted init last more fuel cursor [] w)).
  split; [exact Hfetch|]. split.
  - intros fuel' Hfuel'.
    apply (fetch_pages_running init (inl last :: more)); [assumption | | assumption].
    rewrite Hpend, map_app. cbn [map]. now rewrite <- app_assoc.
  - unfold SavedList_rows. fold cursor. rewrite Hfetch.
    cbn [AuthTest scripted_api].
    match goal with
    | |- context [build_rows _ ?url _ _ _ _] =>
        destruct (build_rows_scripted url c items [] w') as (rows & Hrun & Hkeys)
    end.
    rewrite Hrun. exists rows. split; [reflexivity | exact Hkeys].
Qed.

End Pagination.

Lemma SavedList_pagination_complete_witness :
  let item ts := Handler.MkSavedItem "C1" ts "in_progress" 1700000000 0 in
  let page1 := Handler.MkSavedListResponse [item "1.1"] "next-1" in
  let page2 := Handler.MkSavedListResponse [item "2.1"; item "2.2"] "" in
  let page3 := Handler.MkSavedListResponse [item "3.1"] "" in
  let w := Handler.MkScripted [inl page1; inl page2; inl page3] [] []
             (fun _ => inr "channel_not_found") (fun _ _ => None) (inr "offline") in
  Handler.fetch_pages 5 "" [] w
  = Some (inl [item "1.1"; item "2.1"; item "2.2"],
          Handler.after_calls w [""; "next-1"] [inl page3]).
Proof.
  intros item page1 page2 page3 w.
  refine (proj1 (SavedList_pagination_complete (fun _ => "") [page1] page2
                   [inl page3] 5 (Handler.MkCaches None None)
                   (Server.MkCallToolRequest "saved_list" ∅) w _ _ _ _)).
  - repeat constructor. discriminate.
  - reflexivity.
  - reflexivity.
  - simpl. lia.
Defined.

(** ** Startup readiness *)

Lemma stdio_replies (st : Startup.caches_ready) (es : list Startup.event) :
  Forall (fun r => r = Startup.Waiting \/ r = Startup.Done)
         (Startup.replies Startup.Stdio st es).
Proof.
  revert st. induction es as [|e es IH]; intros st; cbn [Startup.replies].
  - constructor.
  - destruct e as [| | u c]; cbn [Startup.step]; try apply IH.
    constructor; [|apply IH].
    unfold Startup.answer, Startup.accepting.
    destruct st as [[|] [|]], u, c; cbn; tauto.
Qed.

Lemma handshake_replies (t : Startup.transport) (st : Startup.caches_ready)
      (es : list Startup.event) :
  t <> Startup.Stdio ->
  Forall (fun r => r <> Startup.Waiting) (Startup.replies t st es).
Proof.
  intros Ht. revert st. induction es as [|e es IH]; intros st; cbn [Startup.replies].
  - constructor.
  - destruct e as [| | u c]; cbn [Startup.step]; try apply IH.
    constructor; [|apply IH].
    unfold Startup.answer, Startup.accepting.
    destruct t; [contradiction | |]; destruct st as [[|] [|]], u, c; cbn; discriminate.
Qed.

Lemma final_ready (t : Startup.transport) (es : list Startup.event)
      (st : Startup.caches_ready) :
  (Startup.usersReady st = true \/ In Startup.UsersWarm es ->
   Startup.usersReady (Startup.final t st es) = true)
  /\ (Startup.channelsReady st = true \/ In Startup.ChannelsWarm es ->
      Startup.channelsReady (Startup.final t st es) = true).
Proof.
  revert st. induction es as [|e es IH]; intros st; cbn [Startup.final].
  - split; (intros [H|[]]; exact H).
  - destruct (IH (fst (Startup.step t st e))) as [IHu IHc].
    split; intros Hready; [apply IHu | apply IHc];
      destruct e as [| | u c]; cbn [Startup.step fst Startup.usersReady
                                       Startup.channelsReady];
      try (left; reflexivity);
      destruct Hready as [H | [H | H]]; try discriminate H; auto.
Qed.

(** C7. In the pipe-based transport an operation is answered only once
    both directory caches are ready, so that no operation ever gets a
    NotReady error there.  In the transports with their own handshake
    operations are answered from the start; an operation gets a
    NotReady error exactly when a cache it reads is not ready; and once
    both warm-ups have completed the same operation succeeds, so the
    error is one to retry. *)
Theorem startup_readiness_policy (t : Startup.transport) (st : Startup.caches_ready)
        (es : list Startup.event) (needsUsers needsChannels : bool) :
  (Startup.answer Startup.Stdio st needsUsers needsChannels <> Startup.Waiting
   <-> Startup.usersReady st = true /\ Startup.channelsReady st = true)
  /\ Forall (fun r => Startup.is_not_ready r = false)
            (Startup.replies Startup.Stdio st es)
  /\ (t <> Startup.Stdio ->
      Forall (fun r => r <> Startup.Waiting) (Startup.replies t st es)
      /\ (Startup.is_not_ready (Startup.answer t st needsUsers needsChannels) = true
          <-> (needsUsers = true /\ Startup.usersReady st = false)
              \/ (needsChannels = true /\ Startup.channelsReady st = false))
      /\ (In Startup.UsersWarm es -> In Startup.ChannelsWarm es ->
          Startup.answer t (Startup.final t st es) needsUsers needsChannels
          = Startup.Done)).
Proof.
  split; [|split].
  - unfold Startup.answer, Startup.accepting.
    destruct st as [[|] [|]], needsUsers, needsChannels; cbn;
      split; try tauto; try discriminate;
      intros [Hu Hc]; discriminate.
  - eapply Forall_impl; [apply stdio_replies|].
    intros r [-> | ->]; reflexivity.
  - intros Ht. split; [now apply handshake_replies|]. split.
    + unfold Startup.answer, Startup.accepting.
      destruct t; [contradiction | |];
        destruct st as [[|] [|]], needsUsers, needsChannels; cbn;
        split; try discriminate; try tauto;
        intros [[H1 H2] | [H1 H2]]; discriminate.
    + intros Hu Hc.
      destruct (final_ready t es st) as [Hfu Hfc].
      specialize (Hfu (or_intror Hu)). specialize (Hfc (or_intror Hc)).
      unfold Startup.answer, Startup.accepting.
      rewrite Hfu, Hfc.
      destruct t; [contradiction | |]; now destruct needsUsers, needsChannels.
Qed.

Lemma startup_readiness_policy_witness :
  Startup.answer Startup.SSE
    (Startup.final Startup.SSE Startup.cold
       [Startup.Operation true false; Startup.UsersWarm; Startup.ChannelsWarm])
    true true
  = Startup.Done.
Proof.
  refine (proj2 (proj2 (proj2 (proj2 (startup_readiness_policy
            Startup.SSE Startup.cold
            [Startup.Operation true false; Startup.UsersWarm; Startup.ChannelsWarm]
            true true)) _)) _ _).
  - discriminate.
  - simpl. tauto.
  - simpl. tauto.
Defined.


(** * Further properties of the tool table *)

Lemma lookup_AddTool_ne (name k : string) (h : Server.tool_handler)
      (s : gmap string Server.tool_handler) :
  name <> k -> Server.AddTool name h s !! k = s !! k.
Proof. intros Hne. unfold Server.AddTool. now apply lookup_insert_ne. Qed.

Lemma lookup_AddTool_eq (name : string) (h : Server.tool_handler)
      (s : gmap string Server.tool_handler) :
  Server.AddTool name h s !! name = Some h.
Proof. unfold Server.AddTool. apply lookup_insert_eq. Qed.

(** Reading the table at a given name: walk back through the
    registrations of NewMCPServer. *)
Ltac tool_lookup :=
  unfold Server.register_tools;
  repeat first [ rewrite lookup_AddTool_if_ne by discriminate
               | rewrite lookup_AddTool_ne by discriminate
               | rewrite lookup_AddTool_if_eq
               | rewrite lookup_AddTool_eq
               | rewrite lookup_empty ].

Lemma lookup_AddTool_if_Some (cond : bool) (name k : string)
      (h h' : Server.tool_handler) (s : gmap string Server.tool_handler) :
  Server.AddTool_if cond name h s !! k = Some h' ->
  (cond = true /\ k = name) \/ s !! k = Some h'.
Proof.
  unfold Server.AddTool_if, Server.AddTool. destruct cond; [|now right].
  destruct (decide (name = k)) as [->|Hne]; [now left|].
  rewrite lookup_insert_ne by assumption. now right.
Qed.

Lemma lookup_AddTool_Some (name k : string)
      (h h' : Server.tool_handler) (s : gmap string Server.tool_handler) :
  Server.AddTool name h s !! k = Some h' -> k = name \/ s !! k = Some h'.
Proof.
  unfold Server.AddTool. destruct (decide (name = k)) as [->|Hne]; [now left|].
  rewrite lookup_insert_ne by assumption. now right.
Qed.

(** Whatever the opt-in variable, a gate that opens has an empty
    allow-list or one that names the tool. *)
Lemma shouldAddTool_true_inv (env : gmap string string) (T : string)
      (enabledTools : list string) (E : string) :
  Server.shouldAddTool env T enabledTools E = true ->
  enabledTools = [] \/ T ∈ enabledTools.
Proof.
  unfold Server.shouldAddTool. intros Hgate.
  destruct enabledTools as [|t ts]; [now left|]. right.
  apply slices_Contains_spec.
  destruct (Go.slices_Contains (t :: ts) T); [reflexivity|].
  simpl in Hgate. now destruct (String.eqb E "").
Qed.

Lemma shouldAddTool_listed (env : gmap string string) (T : string)
      (enabledTools : list string) (E : string) :
  T ∈ enabledTools -> Server.shouldAddTool env T enabledTools E = true.
Proof.
  intros Hin. unfold Server.shouldAddTool.
  rewrite (proj2 (slices_Contains_spec _ _) Hin).
  destruct enabledTools as [|t ts]; [inversion Hin|].
  simpl. now destruct (String.eqb E "").
Qed.

Lemma shouldAddTool_no_list (env : gmap string string) (T E : string) :
  E <> "" ->
  (Server.shouldAddTool env T [] E = true <-> Go.Getenv env E <> "").
Proof.
  intros HE. unfold Server.shouldAddTool.
  destruct (String.eqb_spec E "") as [->|_]; [contradiction|].
  simpl. now destruct (String.eqb_spec (Go.Getenv env E) "").
Qed.

Lemma ValidateEnabledTools_nil_valid (tools : list string) (t : string) :
  Server.ValidateEnabledTools tools = None -> t ∈ tools ->
  t ∈ Server.ValidToolNames.
Proof.
  unfold Server.ValidateEnabledTools, Server.ValidateEnabledTools_run.
  rewrite validate_loop_spec. cbn [fst Server.vs_invalidTools].
  intros Hnil Hin.
  destruct (filter (fun t => t ∉ Server.ValidToolNames) tools) as [|x xs] eqn:Hf;
    [|discriminate].
  destruct (decide (t ∈ Server.ValidToolNames)) as [Hok|Hbad]; [assumption|].
  exfalso. eapply filter_nil_not_elem_of; [exact Hf | exact Hbad | exact Hin].
Qed.

(** X1. The user-search tool is registered in every configuration: no
    allow-list and no credential kind turns it off, and an allow-list
    that passes ValidateEnabledTools cannot even name it. *)
Theorem users_search_always_registered (c : Server.config) :
  Server.register_tools c !! "users_search" = Some Server.UsersSearchHandler
  /\ (Server.ValidateEnabledTools (Server.enabledTools c) = None ->
      "users_search" ∉ Server.enabledTools c).
Proof.
  split.
  - tool_lookup. reflexivity.
  - intros Hvalid Hin.
    pose proof (ValidateEnabledTools_nil_valid _ _ Hvalid Hin) as Hmember.
    unfold Server.ValidToolNames in Hmember.
    repeat (apply elem_of_cons in Hmember as [Heq | Hmember]; [discriminate Heq|]).
    now apply elem_of_nil in Hmember.
Qed.

Lemma users_search_always_registered_witness :
  "users_search" ∉ ["channels_list"; "saved_list"].
Proof.
  apply (proj2 (users_search_always_registered
                  (Server.Config true ["channels_list"; "saved_list"] ∅))).
  vm_compute. reflexivity.
Defined.

(** X2. A tool in the table other than the user search is one of
    ValidToolNames and passed its gate: the allow-list is empty or names
    it.  With a non-empty allow-list nothing outside the list is
    registered, except the user search. *)
Theorem registered_tools_within_allow_list (c : Server.config) (name : string)
        (h : Server.tool_handler) :
  Server.register_tools c !! name = Some h ->
  name = "users_search"
  \/ (name ∈ Server.ValidToolNames
      /\ (Server.enabledTools c = [] \/ name ∈ Server.enabledTools c)).
Proof.
  unfold Server.register_tools. intros Hreg.
  repeat first
    [ apply lookup_AddTool_if_Some in Hreg as [[Hgate ->] | Hreg];
      [ right; split;
        [ unfold Server.ValidToolNames; repeat constructor
        | try (apply andb_prop in Hgate as [_ Hgate]);
          exact (shouldAddTool_true_inv _ _ _ _ Hgate) ]
      | ]
    | apply lookup_AddTool_Some in Hreg as [-> | Hreg]; [now left|] ].
  rewrite lookup_empty in Hreg. discriminate Hreg.
Qed.

Lemma registered_tools_within_allow_list_witness :
  "channels_list" = "users_search"
  \/ ("channels_list" ∈ Server.ValidToolNames
      /\ (["channels_list"] = [] \/ "channels_list" ∈ ["channels_list"])).
Proof.
  apply (registered_tools_within_allow_list
           (Server.Config false ["channels_list"] ∅)
           "channels_list" Server.ChannelsHandler).
  reflexivity.
Defined.

(** X3. Every valid tool that a non-empty allow-list names is
    registered, whatever the environment says, except the message search
    under a bot token. *)
Theorem allow_listed_tools_registered (c : Server.config) (name : string) :
  name ∈ Server.ValidToolNames ->
  name ∈ Server.enabledTools c ->
  (name = "conversations_search_messages" -> Server.IsBotToken c = false) ->
  is_Some (Server.register_tools c !! name).
Proof.
  intros Hvalid Hlisted Hbot. unfold Server.ValidToolNames in Hvalid.
  repeat (apply elem_of_cons in Hvalid as [-> | Hvalid];
          [ tool_lookup;
            rewrite ?(Hbot eq_refl);
            rewrite (shouldAddTool_listed _ _ _ _ Hlisted);
            now eexists
          | ]).
  now apply elem_of_nil in Hvalid.
Qed.

Lemma allow_listed_tools_registered_witness :
  is_Some (Server.register_tools
             (Server.Config true ["saved_complete"; "reactions_add"] ∅)
             !! "saved_complete").
Proof.
  apply (allow_listed_tools_registered
           (Server.Config true ["saved_complete"; "reactions_add"] ∅)
           "saved_complete").
  - unfold Server.ValidToolNames. repeat constructor.
  - repeat constructor.
  - discriminate.
Defined.

(** X4. Without an allow-list the write and opt-in tools follow their
    environment variables alone: each is registered exactly when its
    variable is set to a non-empty value, and the two reaction tools,
    which share one variable, come and go together. *)
Theorem opt_in_tools_follow_environment (c : Server.config) :
  Server.enabledTools c = [] ->
  let on name := is_Some (Server.register_tools c !! name) in
  let set E := Go.Getenv (Server.environ c) E <> "" in
  (on "conversations_add_message" <-> set "SLACK_MCP_ADD_MESSAGE_TOOL")
  /\ (on "reactions_add" <-> set "SLACK_MCP_REACTION_TOOL")
  /\ (on "reactions_remove" <-> set "SLACK_MCP_REACTION_TOOL")
  /\ (on "attachment_get_data" <-> set "SLACK_MCP_ATTACHMENT_TOOL")
  /\ (on "saved_list" <-> set "SLACK_MCP_SAVED_LIST_TOOL")
  /\ (on "saved_complete" <-> set "SLACK_MCP_SAVED_COMPLETE_TOOL").
Proof.
  intros Hempty on set. unfold on, set.
  repeat split.
  all: (tool_lookup; rewrite Hempty;
            match goal with
            | |- is_Some (if Server.shouldAddTool ?env ?T [] ?E then _ else _) -> _ =>
                intros Hon; apply (shouldAddTool_no_list env T E); [discriminate|];
                destruct (Server.shouldAddTool env T [] E); [reflexivity|];
                now destruct Hon
            | |- _ -> is_Some (if Server.shouldAddTool ?env ?T [] ?E then _ else _) =>
                intros Hset; apply (shouldAddTool_no_list env T E) in Hset;
                [rewrite Hset; now eexists | discriminate]
            end).
Qed.

Lemma opt_in_tools_follow_environment_witness :
  is_Some (Server.register_tools
             (Server.Config false [] {["SLACK_MCP_REACTION_TOOL" := "1"]})
             !! "reactions_remove").
Proof.
  apply (proj1 (proj2 (proj2 (opt_in_tools_follow_environment
           (Server.Config false [] {["SLACK_MCP_REACTION_TOOL" := "1"]})
           eq_refl)))).
  vm_compute. discriminate.
Defined.

(** * Further properties of the middleware *)

(** X5. A call that the handler answers without an error goes through
    the error-recovery and logging middleware unchanged, result and
    backend state alike; and wrapping a handler in the error-recovery
    middleware a second time changes nothing. *)
Theorem error_recovery_passes_results {W : Type} (next : Server.ToolHandlerFunc W)
        (req : Server.CallToolRequest) (w : W) :
  (snd (fst (next req w)) = None ->
   Server.buildErrorRecoveryMiddleware (Server.buildLoggerMiddleware next) req w
   = next req w)
  /\ Server.buildErrorRecoveryMiddleware (Server.buildErrorRecoveryMiddleware next) req w
     = Server.buildErrorRecoveryMiddleware next req w.
Proof.
  unfold Server.buildErrorRecoveryMiddleware, Server.buildLoggerMiddleware.
  destruct (next req w) as [[res [e|]] w']; cbn [fst snd]; split;
    try reflexivity; intros Herr; discriminate Herr.
Qed.

Lemma error_recovery_passes_results_witness :
  Server.buildErrorRecoveryMiddleware
    (Server.buildLoggerMiddleware
       (fun _ (w : nat) => ((Some (Server.NewToolResultText "ok"), None), S w)))
    (Server.MkCallToolRequest "channels_list" ∅) 0
  = ((Some (Server.NewToolResultText "ok"), None), 1).
Proof.
  apply (proj1 (error_recovery_passes_results
                  (fun _ (w : nat) => ((Some (Server.NewToolResultText "ok"), None), S w))
                  (Server.MkCallToolRequest "channels_list" ∅) 0)).
  reflexivity.
Defined.

(** * Further properties of the saved-items handlers *)

(** X6. With both parameters given, SavedCompleteHandler makes exactly
    one call to the backend, with the channel and the timestamp of the
    request, whether the call succeeds or not; when it fails the handler
    returns the error of the backend and no result. *)
Theorem SavedCompleteHandler_single_call (request : Server.CallToolRequest)
        (w : Handler.scripted) :
  let channel := Server.GetString request "channel" "" in
  let ts := Server.GetString request "ts" "" in
  channel <> "" -> ts <> "" ->
  Handler.completed (snd (Handler.SavedCompleteHandler request w))
  = (Handler.completed w ++ [(channel, ts)])%list
  /\ Handler.asked (snd (Handler.SavedCompleteHandler request w)) = Handler.asked w
  /\ forall e, Handler.complete_of w channel ts = Some e ->
               fst (Handler.SavedCompleteHandler request w) = (None, Some e).
Proof.
  intros channel ts Hc Ht. unfold Handler.SavedCompleteHandler.
  fold channel. fold ts.
  apply String.eqb_neq in Hc, Ht. rewrite Hc, Ht.
  cbn [Handler.SavedCompleteContext Handler.scripted_api].
  destruct (Handler.complete_of w channel ts) as [e|] eqn:Hanswer;
    cbn [fst snd Handler.completed Handler.asked];
    repeat split; try reflexivity.
  - intros e' He'. now injection He' as ->.
  - intros e' He'. discriminate He'.
Qed.

Lemma SavedCompleteHandler_single_call_witness :
  Handler.completed
    (snd (Handler.SavedCompleteHandler
            (Server.MkCallToolRequest "saved_complete"
               {["channel" := Server.ArgString "C1"; "ts" := Server.ArgString "1.2"]})
            (Handler.MkScripted [] [] [] (fun _ => inl [])
                                (fun _ _ => Some "message_not_found") (inr "offline"))))
  = [("C1", "1.2")].
Proof.
  refine (proj1 (SavedCompleteHandler_single_call
           (Server.MkCallToolRequest "saved_complete"
              {["channel" := Server.ArgString "C1"; "ts" := Server.ArgString "1.2"]})
           (Handler.MkScripted [] [] [] (fun _ => inl [])
                               (fun _ _ => Some "message_not_found") (inr "offline"))
           _ _)).
  - vm_compute. discriminate.
  - vm_compute. discriminate.
Defined.

(** X7. Behind the middleware stack a saved_complete call without its
    parameters comes back as an isError result that names the missing
    parameter, with a nil error and the backend untouched. *)
Theorem SavedComplete_missing_parameter_is_tool_error {W : Type} `{Handler.SlackAPI W}
        (request : Server.CallToolRequest) (w : W) :
  let channel := Server.GetString request "channel" "" in
  let ts := Server.GetString request "ts" "" in
  channel = "" \/ ts = "" ->
  Server.middleware_stack (fun handler => handler) Handler.SavedCompleteHandler request w
  = ((Some (Server.MkCallToolResult
              [if String.eqb channel "" then "channel is required" else "ts is required"]
              true), None), w).
Proof.
  intros channel ts Hmissing.
  unfold Server.middleware_stack, Server.buildErrorRecoveryMiddleware,
    Server.buildLoggerMiddleware, Handler.SavedCompleteHandler.
  fold channel. fold ts.
  destruct (String.eqb_spec channel "") as [Hc|Hc]; [reflexivity|].
  destruct (String.eqb_spec ts "") as [Ht|Ht]; [reflexivity|].
  destruct Hmissing; contradiction.
Qed.

Lemma SavedComplete_missing_parameter_is_tool_error_witness :
  Server.middleware_stack (fun handler => handler) Handler.SavedCompleteHandler
    (Server.MkCallToolRequest "saved_complete" {["ts" := Server.ArgString "1.2"]})
    (Handler.MkScripted [] [] [] (fun _ => inl []) (fun _ _ => None) (inr "offline"))
  = ((Some (Server.MkCallToolResult ["channel is required"] true), None),
     Handler.MkScripted [] [] [] (fun _ => inl []) (fun _ _ => None) (inr "offline")).
Proof.
  exact (SavedComplete_missing_parameter_is_tool_error
           (Server.MkCallToolRequest "saved_complete" {["ts" := Server.ArgString "1.2"]})
           (Handler.MkScripted [] [] [] (fun _ => inl []) (fun _ _ => None)
                               (inr "offline"))
           (or_introl eq_refl)).
Defined.

(** X8. The page loop has no bound of its own: on a backend whose every
    answer is a page with a next cursor it is still running after any
    number of iterations, so the handler never returns. *)
Theorem fetch_pages_never_ends {W : Type} `{Handler.SlackAPI W} :
  (forall cursor w, exists page w',
      Handler.SavedListContext cursor w = (inl page, w')
      /\ Handler.NextCursor page <> "") ->
  forall fuel cursor acc w, Handler.fetch_pages fuel cursor acc w = None.
Proof.
  intros Hmore fuel. induction fuel as [|fuel IH]; intros cursor acc w.
  - reflexivity.
  - cbn [Handler.fetch_pages].
    destruct (Hmore cursor w) as (page & w' & Hcall & Hnext).
    rewrite Hcall. apply String.eqb_neq in Hnext. rewrite Hnext. apply IH.
Qed.

Lemma fetch_pages_never_ends_witness :
  @Handler.fetch_pages nat Endless.endless_api 1000 "" [] 0 = None.
Proof.
  apply (@fetch_pages_never_ends nat Endless.endless_api).
  intros cursor n. eexists _, _. split; [reflexivity | discriminate].
Defined.

(** The same on the backend that records its calls: the calls made are
    the [saved.list] calls of the loop and no other. *)
Lemma fetch_pages_error_traced (init : list Handler.SavedListResponse) :
  forall (e : string) (more : list (Handler.SavedListResponse + string))
         (fuel : nat) (cursor : string) (acc : list Handler.SavedItem)
         (w : Handler.scripted) (log : list Traced.api_call),
    Forall (fun p => Handler.NextCursor p <> "") init ->
    Handler.pending w = (map inl init ++ inr e :: more)%list ->
    length init < fuel ->
    @Handler.fetch_pages _ (Traced.traced_api Handler.scripted_api)
      fuel cursor acc (w, log)
    = Some (inr e,
            (Handler.after_calls w (cursor :: map Handler.NextCursor init) more,
             (log ++ map Traced.CallSavedList
                         (cursor :: map Handler.NextCursor init))%list)).
Proof.
  induction init as [|p init IH];
    intros e more fuel cursor acc w log Hinit Hpend Hfuel.
  - destruct fuel as [|fuel]; [lia|]. cbn [Handler.fetch_pages].
    cbn [Handler.SavedListContext Traced.traced_api Handler.scripted_api].
    unfold Handler.scripted_SavedList. rewrite Hpend. reflexivity.
  - destruct fuel as [|fuel]; [simpl in Hfuel; lia|]. cbn [Handler.fetch_pages].
    cbn [Handler.SavedListContext Traced.traced_api Handler.scripted_api].
    unfold Handler.scripted_SavedList. rewrite Hpend. cbn [app map].
    apply Forall_cons in Hinit as [Hp Hinit].
    apply String.eqb_neq in Hp. rewrite Hp.
    rewrite (IH e more); [| assumption | reflexivity | simpl in Hfuel; lia].
    unfold Handler.after_calls.
    cbn [Handler.asked Handler.completed Handler.history_of Handler.complete_of
         Handler.auth_of].
    now rewrite <- !app_assoc.
Qed.

(** X9. When the backend fails on a page, SavedListHandler returns that
    error and nothing else: the items of the pages fetched before are
    dropped, no row is built, and the calls it has made are the
    [saved.list] calls up to the failing one: no authentication test, no
    history call and no further page. *)
Theorem SavedList_error_drops_pages
        (formatRFC3339 : Z -> string)
        (MarshalBytes : list Handler.SavedItemRow -> string + string)
        (init : list Handler.SavedListResponse) (e : string)
        (more : list (Handler.SavedListResponse + string))
        (fuel : nat) (c : Handler.caches) (request : Server.CallToolRequest)
        (w : Handler.scripted) (log : list Traced.api_call) :
  Forall (fun p => Handler.NextCursor p <> "") init ->
  Handler.pending w = (map inl init ++ inr e :: more)%list ->
  length init < fuel ->
  let cursors := Server.GetString request "cursor" "" :: map Handler.NextCursor init in
  @Handler.SavedListHandler _ (Traced.traced_api Handler.scripted_api)
    formatRFC3339 MarshalBytes fuel c request (w, log)
  = Some ((None, Some e),
          (Handler.after_calls w cursors more,
           (log ++ map Traced.CallSavedList cursors)%list)).
Proof.
  intros Hinit Hpend Hfuel cursors.
  unfold Handler.SavedListHandler, Handler.SavedList_rows.
  now rewrite (fetch_pages_error_traced init e more fuel _ [] w log Hinit Hpend Hfuel).
Qed.

Lemma SavedList_error_drops_pages_witness :
  let item := Handler.MkSavedItem "C1" "1.1" "in_progress" 1700000000 0 in
  let page1 := Handler.MkSavedListResponse [item] "next-1" in
  let w := Handler.MkScripted [inl page1; inr "ratelimited"] [] []
             (fun _ => inl []) (fun _ _ => None) (inr "offline") in
  @Handler.SavedListHandler _ (Traced.traced_api Handler.scripted_api)
    (fun _ => "") (fun _ => inl "") 3
    (Handler.MkCaches None None) (Server.MkCallToolRequest "saved_list" ∅) (w, [])
  = Some ((None, Some "ratelimited"),
          (Handler.after_calls w [""; "next-1"] [],
           [Traced.CallSavedList ""; Traced.CallSavedList "next-1"])).
Proof.
  intros item page1 w.
  refine (SavedList_error_drops_pages (fun _ => "") (fun _ => inl "")
            [page1] "ratelimited" [] 3 (Handler.MkCaches None None)
            (Server.MkCallToolRequest "saved_list" ∅) w [] _ _ _).
  - repeat constructor. discriminate.
  - reflexivity.
  - simpl. lia.
Defined.

(** X10. Whatever the backend answers, every call of the page loop
    after the first carries a non-empty cursor: the loop never starts
    over from the first page. *)
Theorem fetch_pages_cursors_nonempty (fuel : nat) :
  forall (cursor : string) (acc : list Handler.SavedItem) (w w' : Handler.scripted)
         (r : list Handler.SavedItem + string),
    Handler.fetch_pages fuel cursor acc w = Some (r, w') ->
    exists later,
      Handler.asked w' = (Handler.asked w ++ cursor :: later)%list
      /\ Forall (fun cur => cur <> "") later.
Proof.
  induction fuel as [|fuel IH]; intros cursor acc w w' r; cbn [Handler.fetch_pages].
  - discriminate.
  - cbn [Handler.SavedListContext Handler.scripted_api].
    unfold Handler.scripted_SavedList.
    destruct (Handler.pending w) as [|[page|e] answers].
    + intros Heq. injection Heq as <- <-. exists []. split; [reflexivity | constructor].
    + destruct (String.eqb_spec (Handler.NextCursor page) "") as [Hdone|Hnext].
      * intros Heq. injection Heq as <- <-. exists [].
        split; [reflexivity | constructor].
      * intros Hrun. apply IH in Hrun as (later & Hasked & Hlater).
        cbn [Handler.asked] in Hasked.
        exists (Handler.NextCursor page :: later). split.
        -- rewrite Hasked. now rewrite <- app_assoc.
        -- now constructor.
    + intros Heq. injection Heq as <- <-. exists []. split; [reflexivity | constructor].
Qed.

Lemma fetch_pages_cursors_nonempty_witness :
  let page1 := Handler.MkSavedListResponse [] "next-1" in
  let page2 := Handler.MkSavedListResponse [] "" in
  let w := Handler.MkScripted [inl page1; inl page2] ["earlier"] []
             (fun _ => inl []) (fun _ _ => None) (inr "offline") in
  exists later,
    Handler.asked (Handler.after_calls w [""; "next-1"] [])
    = (["earlier"] ++ "" :: later)%list
    /\ Forall (fun cur => cur <> "") later.
Proof.
  intros page1 page2 w.
  apply (fetch_pages_cursors_nonempty 2 "" [] w
           (Handler.after_calls w [""; "next-1"] []) (inl [])).
  reflexivity.
Defined.

(** ** The rows of SavedListHandler *)

Lemma all_chars_app (ok : ascii -> bool) (a b : string) :
  SlackMarkup.all_chars ok (a ++ b)
  = SlackMarkup.all_chars ok a && SlackMarkup.all_chars ok b.
Proof.
  induction a as [|x a IH]; [reflexivity|].
  rewrite string_app_cons. cbn [SlackMarkup.all_chars].
  now rewrite IH, andb_assoc.
Qed.

(** Replacing a character by a text that does not hold it leaves no
    occurrence of the character. *)
Lemma ReplaceAll1_free_of (s : string) (old : ascii) (new : string) :
  SlackMarkup.free_of old new = true ->
  SlackMarkup.free_of old (Go.ReplaceAll1 s old new) = true.
Proof.
  intros Hnew. unfold SlackMarkup.free_of in *.
  induction s as [|a s IH]; [reflexivity|].
  cbn [Go.ReplaceAll1]. destruct (Ascii.eqb a old) eqn:Ha.
  - now rewrite all_chars_app, Hnew, IH.
  - cbn [SlackMarkup.all_chars]. now rewrite Ha, IH.
Qed.

Lemma TrimRight1_split (s : string) (c : ascii) :
  exists tail,
    s = Handler.TrimRight1 s c ++ tail
    /\ SlackMarkup.all_chars (fun a => Ascii.eqb a c) tail = true.
Proof.
  induction s as [|a s (tail & Hs & Htail)].
  - now exists "".
  - cbn [Handler.TrimRight1].
    destruct (Ascii.eqb a c) eqn:Ha; cbn [andb].
    + destruct (String.eqb_spec (Handler.TrimRight1 s c) "") as [Hempty|Hrest].
      * exists (String a s). split; [reflexivity|].
        cbn [SlackMarkup.all_chars]. rewrite Ha. cbn [andb].
        rewrite Hs, Hempty. exact Htail.
      * exists tail. split; [|exact Htail].
        rewrite string_app_cons. now rewrite <- Hs.
    + exists tail. split; [|exact Htail].
      rewrite string_app_cons. now rewrite <- Hs.
Qed.

Lemma TrimRight1_no_trailing (s : string) (c : ascii) (p : string) :
  Handler.TrimRight1 s c <> p ++ String c "".
Proof.
  revert p. induction s as [|a s IH]; intros p; cbn [Handler.TrimRight1].
  - destruct p; discriminate.
  - destruct (Ascii.eqb_spec a c) as [->|Hne]; cbn [andb].
    + destruct (String.eqb_spec (Handler.TrimRight1 s c) "") as [Hempty|Hrest].
      * destruct p; discriminate.
      * destruct p as [|x p].
        -- rewrite string_app_nil_l. intros Heq. injection Heq as Heq. contradiction.
        -- rewrite string_app_cons. intros Heq. injection Heq as _ Heq.
           now apply (IH p).
    + destruct p as [|x p].
      * rewrite string_app_nil_l. intros Heq. injection Heq as Heq _. contradiction.
      * rewrite string_app_cons. intros Heq. injection Heq as _ Heq.
        now apply (IH p).
Qed.

Lemma TrimRight1_all (s : string) (c : ascii) :
  SlackMarkup.all_chars (fun a => Ascii.eqb a c) s = true ->
  Handler.TrimRight1 s c = "".
Proof.
  induction s as [|a s IH]; [reflexivity|].
  cbn [SlackMarkup.all_chars Handler.TrimRight1].
  intros [Ha Hs]%andb_prop. now rewrite Ha, (IH Hs).
Qed.

Section Rows.

Context {W : Type} `{Handler.SlackAPI W}.
Variable formatRFC3339 : Z -> string.

(** The text that fetchMessageText returns holds no newline. *)
Lemma fetchMessageText_one_line (channelID ts : string)
      (usersCache : option (gmap string Handler.SlackUser)) (w : W) :
  SlackMarkup.free_of Handler.newline
    (snd (fst (Handler.fetchMessageText channelID ts usersCache w))) = true.
Proof.
  unfold Handler.fetchMessageText.
  destruct (Handler.GetConversationHistoryContext _ w) as [[[|msg msgs]|err] w'];
    cbn [fst snd]; try reflexivity.
  now apply ReplaceAll1_free_of.
Qed.

Lemma build_row_fields (workspaceURL : string) (c : Handler.caches)
      (item : Handler.SavedItem) (w : W) :
  let row := fst (Handler.build_row formatRFC3339 workspaceURL c item w) in
  Handler.Channel row = Handler.ItemID item
  /\ Handler.Ts row = Handler.item_Ts item
  /\ Handler.Cursor row = ""
  /\ SlackMarkup.free_of Handler.newline (Handler.Text row) = true
  /\ Handler.Link row
     = if negb (String.eqb workspaceURL "") && negb (String.eqb (Handler.item_Ts item) "")
       then workspaceURL ++ "/archives/" ++ Handler.ItemID item ++ "/p"
              ++ Go.ReplaceAll1 (Handler.item_Ts item) "." ""
       else "".
Proof.
  unfold Handler.build_row.
  pose proof (fetchMessageText_one_line (Handler.ItemID item) (Handler.item_Ts item)
                (Handler.UsersCache c) w) as Hline.
  destruct (Handler.fetchMessageText _ _ _ w) as [[msgUser msgText] w'].
  cbn [fst snd] in *. repeat split; try reflexivity. exact Hline.
Qed.

(** What holds of every row that the loop body builds holds of all the
    rows of the loop. *)
Lemma build_rows_Forall (P : Handler.SavedItemRow -> Prop)
      (workspaceURL : string) (c : Handler.caches) :
  (forall item w, P (fst (Handler.build_row formatRFC3339 workspaceURL c item w))) ->
  forall items rows w,
    Forall P rows ->
    Forall P (fst (Handler.build_rows formatRFC3339 workspaceURL c items rows w)).
Proof.
  intros Hrow items. induction items as [|item items IH]; intros rows w Hrows.
  - exact Hrows.
  - cbn [Handler.build_rows].
    pose proof (Hrow item w) as Hnew.
    destruct (Handler.build_row formatRFC3339 workspaceURL c item w) as [row w'].
    apply IH. apply Forall_app. split; [exact Hrows | now constructor].
Qed.

(** X11. On any backend, every row that SavedListHandler hands to the
    CSV encoder has an empty cursor column and a text without a newline,
    and a row without a timestamp has no link. *)
Theorem SavedList_rows_shape (fuel : nat) (c : Handler.caches)
        (request : Server.CallToolRequest) (w w' : W)
        (rows : list Handler.SavedItemRow) :
  Handler.SavedList_rows formatRFC3339 fuel c request w = Some (inl rows, w') ->
  Forall (fun r => Handler.Cursor r = ""
                   /\ SlackMarkup.free_of Handler.newline (Handler.Text r) = true
                   /\ (Handler.Ts r = "" -> Handler.Link r = ""))
         rows.
Proof.
  unfold Handler.SavedList_rows.
  destruct (Handler.fetch_pages fuel _ [] w) as [[[items|err] w1]|]; try discriminate.
  destruct (Handler.AuthTest w1) as [authResp w2].
  set (url := match authResp with
              | inl ar => Handler.TrimRight1 (Server.URL ar) "/"
              | inr _ => ""
              end).
  pose proof (build_rows_Forall
                (fun r => Handler.Cursor r = ""
                          /\ SlackMarkup.free_of Handler.newline (Handler.Text r) = true
                          /\ (Handler.Ts r = "" -> Handler.Link r = ""))
                url c) as Hall.
  destruct (Handler.build_rows formatRFC3339 url c items [] w2) as [out w3] eqn:Hout.
  intros Heq. injection Heq as <- <-.
  replace out with (fst (out, w3)) by reflexivity. rewrite <- Hout.
  apply Hall; [|constructor].
  intros item w0.
  destruct (build_row_fields url c item w0) as (_ & Hts & Hcur & Hline & Hlink).
  split; [exact Hcur|]. split; [exact Hline|].
  intros Hempty. rewrite Hlink. rewrite Hts in Hempty. rewrite Hempty.
  cbn [String.eqb negb]. now rewrite andb_false_r.
Qed.

End Rows.

Lemma SavedList_rows_shape_witness :
  let item := Handler.MkSavedItem "C1" "" "in_progress" 0 0 in
  let w := Handler.MkScripted [inl (Handler.MkSavedListResponse [item] "")] [] []
             (fun _ => inl [Handler.MkMessage "U1" ("a" ++ String Handler.newline "b")])
             (fun _ _ => None)
             (inl (Server.MkAuthTestResponse "team" "user" "" "https://acme.slack.com/")) in
  exists rows w',
    Handler.SavedList_rows (fun _ => "") 2 (Handler.MkCaches None None)
      (Server.MkCallToolRequest "saved_list" ∅) w = Some (inl rows, w')
    /\ Forall (fun r => Handler.Cursor r = ""
                        /\ SlackMarkup.free_of Handler.newline (Handler.Text r) = true
                        /\ (Handler.Ts r = "" -> Handler.Link r = ""))
              rows.
Proof.
  intros item w. eexists _, _. split; [reflexivity|].
  eapply (SavedList_rows_shape (fun _ => "") 2 (Handler.MkCaches None None)
            (Server.MkCallToolRequest "saved_list" ∅) w).
  reflexivity.
Defined.

(** On the scripted backend the page loop leaves the answers of the
    other methods as they were. *)
Lemma fetch_pages_keeps_answers (fuel : nat) :
  forall (cursor : string) (acc : list Handler.SavedItem) (w w' : Handler.scripted)
         (r : list Handler.SavedItem + string),
    Handler.fetch_pages fuel cursor acc w = Some (r, w') ->
    Handler.auth_of w' = Handler.auth_of w
    /\ Handler.history_of w' = Handler.history_of w.
Proof.
  induction fuel as [|fuel IH]; intros cursor acc w w' r; cbn [Handler.fetch_pages].
  - discriminate.
  - cbn [Handler.SavedListContext Handler.scripted_api].
    unfold Handler.scripted_SavedList.
    destruct (Handler.pending w) as [|[page|e] answers].
    + intros Heq. now injection Heq as <- <-.
    + destruct (String.eqb (Handler.NextCursor page) "").
      * intros Heq. now injection Heq as <- <-.
      * intros Hrun. now apply IH in Hrun.
    + intros Heq. now injection Heq as <- <-.
Qed.

Lemma SavedList_rows_scripted_inv (formatRFC3339 : Z -> string) (fuel : nat)
      (c : Handler.caches) (request : Server.CallToolRequest)
      (w w' : Handler.scripted) (rows : list Handler.SavedItemRow) :
  Handler.SavedList_rows formatRFC3339 fuel c request w = Some (inl rows, w') ->
  exists (items : list Handler.SavedItem) (w1 : Handler.scripted),
    rows = fst (Handler.build_rows formatRFC3339
                  match Handler.auth_of w with
                  | inl ar => Handler.TrimRight1 (Server.URL ar) "/"
                  | inr _ => ""
                  end c items [] w1).
Proof.
  unfold Handler.SavedList_rows.
  destruct (Handler.fetch_pages fuel _ [] w) as [[[items|err] w1]|] eqn:Hfetch;
    try discriminate.
  apply fetch_pages_keeps_answers in Hfetch as [Hauth _].
  cbn [Handler.AuthTest Handler.scripted_api]. rewrite Hauth.
  destruct (Handler.build_rows _ _ c items [] w1) as [out w3] eqn:Hout.
  intros Heq. injection Heq as <- <-. exists items, w1. now rewrite Hout.
Qed.

(** X12. The permalinks are best effort: when the pages come in and
    the authentication test fails, or the workspace URL it returns is
    empty or made of slashes only, SavedListHandler still produces one
    row per item, in order, and each row has an empty link. *)
Theorem SavedList_links_need_workspace (formatRFC3339 : Z -> string)
        (init : list Handler.SavedListResponse) (last : Handler.SavedListResponse)
        (more : list (Handler.SavedListResponse + string))
        (fuel : nat) (c : Handler.caches) (request : Server.CallToolRequest)
        (w : Handler.scripted) :
  Forall (fun p => Handler.NextCursor p <> "") init ->
  Handler.NextCursor last = "" ->
  Handler.pending w = (map inl (init ++ [last]) ++ more)%list ->
  length init < fuel ->
  match Handler.auth_of w with
  | inr _ => True
  | inl ar => SlackMarkup.all_chars (fun a => Ascii.eqb a "/") (Server.URL ar) = true
  end ->
  exists rows w',
    Handler.SavedList_rows formatRFC3339 fuel c request w = Some (inl rows, w')
    /\ map (fun r => (Handler.Channel r, Handler.Ts r, Handler.State r)) rows
       = map (fun i => (Handler.ItemID i, Handler.item_Ts i, Handler.item_State i))
             (concat (map Handler.SavedItems (init ++ [last])))
    /\ Forall (fun r => Handler.Link r = "") rows.
Proof.
  intros Hinit Hlast Hpend Hfuel Hauth.
  unfold Handler.SavedList_rows.
  rewrite (fetch_pages_scripted init last more fuel _ [] w Hinit Hlast Hpend Hfuel).
  cbn [app Handler.AuthTest Handler.scripted_api].
  set (w1 := Handler.after_calls w _ more).
  change (Handler.auth_of w1) with (Handler.auth_of w).
  set (url := match Handler.auth_of w with
              | inl ar => Handler.TrimRight1 (Server.URL ar) "/"
              | inr _ => ""
              end).
  assert (Hurl : url = "").
  { unfold url. destruct (Handler.auth_of w) as [ar|e]; [|reflexivity].
    now apply TrimRight1_all. }
  set (items := concat (map Handler.SavedItems (init ++ [last]))).
  destruct (build_rows_scripted formatRFC3339 url c items [] w1)
    as (rows & Hrun & Hkeys).
  assert (Hrow : forall (item : Handler.SavedItem) (w0 : Handler.scripted),
             Handler.Link (fst (Handler.build_row formatRFC3339 url c item w0)) = "").
  { intros item w0.
    destruct (build_row_fields formatRFC3339 url c item w0) as (_ & _ & _ & _ & Hlink).
    rewrite Hlink, Hurl. reflexivity. }
  assert (Hall : Forall (fun r => Handler.Link r = "")
                        (fst (Handler.build_rows formatRFC3339 url c items [] w1)))
    by (apply build_rows_Forall; [exact Hrow | constructor]).
  rewrite Hrun in Hall |- *. cbn [fst app] in Hall.
  exists rows, w1. split; [reflexivity|]. split; [exact Hkeys | exact Hall].
Qed.

Lemma SavedList_links_need_workspace_witness :
  let item := Handler.MkSavedItem "C1" "1700000000.000100" "in_progress" 0 0 in
  let w := Handler.MkScripted [inl (Handler.MkSavedListResponse [item] "")] [] []
             (fun _ => inr "channel_not_found") (fun _ _ => None) (inr "offline") in
  exists rows w',
    Handler.SavedList_rows (fun _ => "") 2 (Handler.MkCaches None None)
      (Server.MkCallToolRequest "saved_list" ∅) w = Some (inl rows, w')
    /\ map (fun r => (Handler.Channel r, Handler.Ts r, Handler.State r)) rows
       = [("C1", "1700000000.000100", "in_progress")]
    /\ Forall (fun r => Handler.Link r = "") rows.
Proof.
  intros item w.
  refine (SavedList_links_need_workspace (fun _ => "") []
            (Handler.MkSavedListResponse [item] "") [] 2 (Handler.MkCaches None None)
            (Server.MkCallToolRequest "saved_list" ∅) w _ _ _ _ _).
  - constructor.
  - reflexivity.
  - reflexivity.
  - simpl. lia.
  - exact I.
Defined.

(** X13. When the authentication test gives a workspace URL, every
    link of the rows is that URL without its trailing slashes, followed
    by /archives/, the channel of the row, /p and the timestamp of the
    row with its dots taken out. *)
Theorem SavedList_link_shape (formatRFC3339 : Z -> string) (fuel : nat)
        (c : Handler.caches) (request : Server.CallToolRequest)
        (w w' : Handler.scripted) (rows : list Handler.SavedItemRow)
        (ar : Server.AuthTestResponse) :
  Handler.SavedList_rows formatRFC3339 fuel c request w = Some (inl rows, w') ->
  Handler.auth_of w = inl ar ->
  exists base slashes,
    Server.URL ar = base ++ slashes
    /\ SlackMarkup.all_chars (fun a => Ascii.eqb a "/") slashes = true
    /\ (forall p, base <> p ++ "/")
    /\ Forall (fun r =>
                 Handler.Link r = ""
                 \/ (Handler.Link r
                     = base ++ "/archives/" ++ Handler.Channel r ++ "/p"
                         ++ Go.ReplaceAll1 (Handler.Ts r) "." ""
                     /\ SlackMarkup.free_of "." (Go.ReplaceAll1 (Handler.Ts r) "." "")
                        = true))
              rows.
Proof.
  intros Hrun Hauth.
  apply SavedList_rows_scripted_inv in Hrun as (items & w1 & ->).
  rewrite Hauth.
  destruct (TrimRight1_split (Server.URL ar) "/") as (slashes & Hurl & Hslashes).
  exists (Handler.TrimRight1 (Server.URL ar) "/"), slashes.
  split; [exact Hurl|]. split; [exact Hslashes|].
  split; [intros p; apply TrimRight1_no_trailing|].
  apply build_rows_Forall; [|constructor].
  intros item w0.
  destruct (build_row_fields formatRFC3339 (Handler.TrimRight1 (Server.URL ar) "/")
              c item w0) as (Hch & Hts & _ & _ & Hlink).
  rewrite Hlink, Hch, Hts.
  destruct (negb _ && negb _); [right | now left].
  split; [reflexivity | now apply ReplaceAll1_free_of].
Qed.

Lemma SavedList_link_shape_witness :
  let item := Handler.MkSavedItem "C1" "1700000000.000100" "in_progress" 0 0 in
  let ar := Server.MkAuthTestResponse "team" "user" "" "https://acme.slack.com//" in
  let w := Handler.MkScripted [inl (Handler.MkSavedListResponse [item] "")] [] []
             (fun _ => inr "channel_not_found") (fun _ _ => None) (inl ar) in
  exists rows w',
    Handler.SavedList_rows (fun _ => "") 2 (Handler.MkCaches None None)
      (Server.MkCallToolRequest "saved_list" ∅) w = Some (inl rows, w')
    /\ map Handler.Link rows
       = ["https://acme.slack.com/archives/C1/p1700000000000100"]
    /\ exists base slashes, Server.URL ar = base ++ slashes /\ forall p, base <> p ++ "/".
Proof.
  intros item ar w. eexists _, _. split; [reflexivity|]. split; [reflexivity|].
  edestruct (SavedList_link_shape (fun _ => "") 2 (Handler.MkCaches None None)
               (Server.MkCallToolRequest "saved_list" ∅) w)
    as (base & slashes & Hurl & _ & Hbase & _); [reflexivity | reflexivity |].
  now exists base, slashes.
Defined.

(** * Further properties of slackLinkRe *)

Section NeedsClose.

Variable a : Regexp.atom.
Variable k : string -> option Regexp.matched.
Hypothesis k_needs : forall s, SlackMarkup.free_of ">" s = true -> k s = None.

Lemma one_needs_close (s : string) :
  SlackMarkup.free_of ">" s = true -> Regexp.one a k s = None.
Proof.
  destruct s as [|c s]; [reflexivity|].
  unfold SlackMarkup.free_of. cbn [SlackMarkup.all_chars Regexp.one].
  intros [_ Hs]%andb_prop. rewrite (k_needs s Hs).
  now destruct (Regexp.class a c).
Qed.

Lemma star_needs_close (s : string) :
  SlackMarkup.free_of ">" s = true -> Regexp.star a k s = None.
Proof.
  induction s as [|c s IH]; intros Hfree.
  - now apply k_needs.
  - cbn [Regexp.star]. rewrite (k_needs _ Hfree).
    unfold SlackMarkup.free_of in Hfree. cbn [SlackMarkup.all_chars] in Hfree.
    apply andb_prop in Hfree as [_ Hs]. rewrite (IH Hs).
    now destruct (Regexp.class a c).
Qed.

End NeedsClose.

(** Putting an atom in front of a pattern that needs a closing bracket
    gives a pattern that needs one. *)
Lemma match_here_cons_needs_close (a : Regexp.atom) (re : Regexp.regexp) :
  (forall s, SlackMarkup.free_of ">" s = true -> Regexp.match_here re s = None) ->
  forall s, SlackMarkup.free_of ">" s = true -> Regexp.match_here (a :: re) s = None.
Proof.
  intros Hre s Hfree. cbn [Regexp.match_here]. destruct (Regexp.rep a).
  - now apply one_needs_close.
  - rewrite (one_needs_close a _ Hre s Hfree). now apply Hre.
  - now apply star_needs_close.
  - apply one_needs_close; [|exact Hfree].
    intros s' Hs'. now apply star_needs_close.
Qed.

Lemma slackLinkRe_needs_close (s : string) :
  SlackMarkup.free_of ">" s = true ->
  Regexp.match_here Handler.slackLinkRe s = None.
Proof.
  unfold Handler.slackLinkRe.
  do 4 (apply match_here_cons_needs_close). clear s.
  intros [|c s]; [reflexivity|].
  unfold SlackMarkup.free_of. cbn [SlackMarkup.all_chars].
  intros [Hc _]%andb_prop.
  cbn [Regexp.match_here Regexp.rep Regexp.one Regexp.class].
  unfold Regexp.is_char. now destruct (Ascii.eqb c ">").
Qed.

(** X14. A text without an opening bracket, or without a closing one,
    comes out of the link replacement as it went in: markup that is not
    closed is left alone. *)
Theorem slackLinkRe_leaves_other_text (s : string) :
  SlackMarkup.free_of "<" s = true \/ SlackMarkup.free_of ">" s = true ->
  Regexp.ReplaceAllString_group1 Handler.slackLinkRe s = s.
Proof.
  intros [Hopen | Hclose].
  - rewrite <- (string_app_nil_r s) at 1.
    rewrite (ReplaceAll_plain s "" Hopen). apply string_app_nil_r.
  - induction s as [|c s IH]; [reflexivity|].
    rewrite (ReplaceAll_skip _ c s (slackLinkRe_needs_close _ Hclose)).
    unfold SlackMarkup.free_of in Hclose. cbn [SlackMarkup.all_chars] in Hclose.
    apply andb_prop in Hclose as [_ Hs]. now rewrite (IH Hs).
Qed.

Lemma slackLinkRe_leaves_other_text_witness :
  Regexp.ReplaceAllString_group1 Handler.slackLinkRe "see <https://a.b|site"
  = "see <https://a.b|site".
Proof.
  apply (slackLinkRe_leaves_other_text "see <https://a.b|site").
  right. reflexivity.
Defined.

Section GroupBound.

Variable a : Regexp.atom.
Variable k : string -> option Regexp.matched.
Hypothesis k_bound :
  forall s g rest, k s = Some (g, rest) ->
                   String.length g + String.length rest <= String.length s.

Lemma keep_bound (c : ascii) (r : option Regexp.matched) (g rest : string) (n : nat) :
  (forall g' rest', r = Some (g', rest') ->
                    String.length g' + String.length rest' <= n) ->
  Regexp.keep a c r = Some (g, rest) ->
  String.length g + String.length rest <= S n.
Proof.
  intros Hr. destruct r as [[g' rest']|]; simpl; [|discriminate].
  specialize (Hr g' rest' eq_refl).
  destruct (Regexp.in_group a); intros Heq; injection Heq as <- <-; simpl; lia.
Qed.

Lemma one_bound (s g rest : string) :
  Regexp.one a k s = Some (g, rest) ->
  String.length g + String.length rest <= String.length s.
Proof.
  destruct s as [|c s]; simpl; [discriminate|].
  destruct (Regexp.class a c); [|discriminate].
  apply keep_bound. intros g' rest'. apply k_bound.
Qed.

Lemma star_bound (s g rest : string) :
  Regexp.star a k s = Some (g, rest) ->
  String.length g + String.length rest <= String.length s.
Proof.
  revert g rest. induction s as [|c s IH]; intros g rest; cbn [Regexp.star].
  - apply k_bound.
  - destruct (Regexp.class a c); [|apply (k_bound (String c s))].
    destruct (Regexp.keep a c (Regexp.star a k s)) as [[g1 r1]|] eqn:Hkeep; simpl.
    + intros Heq. injection Heq as <- <-.
      revert Hkeep. apply keep_bound. intros g' rest'. apply IH.
    + apply (k_bound (String c s)).
Qed.

End GroupBound.

Lemma match_here_bound (re : Regexp.regexp) (s g rest : string) :
  Regexp.match_here re s = Some (g, rest) ->
  String.length g + String.length rest <= String.length s.
Proof.
  revert s g rest. induction re as [|a re IH]; intros s g rest; cbn [Regexp.match_here].
  - intros Heq. injection Heq as <- <-. simpl. lia.
  - destruct (Regexp.rep a).
    + apply one_bound. exact IH.
    + destruct (Regexp.one a (Regexp.match_here re) s) as [[g1 r1]|] eqn:Hone; simpl.
      * intros Heq. injection Heq as <- <-. revert Hone. apply one_bound. exact IH.
      * apply IH.
    + apply star_bound. exact IH.
    + apply one_bound. intros s' g' rest'. apply star_bound. exact IH.
Qed.

(** Putting group 1 in place of the matches never makes a text longer. *)
Lemma replace_group1_length (re : Regexp.regexp) (fuel : nat) (s : string) :
  String.length (Regexp.replace_group1 re fuel s) <= String.length s.
Proof.
  revert s. induction fuel as [|fuel IH]; intros s; cbn [Regexp.replace_group1].
  - lia.
  - destruct (Regexp.match_here re s) as [[g rest]|] eqn:Hmatch.
    + apply match_here_bound in Hmatch. rewrite string_length_app.
      specialize (IH rest). lia.
    + destruct s as [|c s]; [simpl; lia|]. simpl. specialize (IH s). lia.
Qed.

Lemma ReplaceAll1_space_length (s : string) (old : ascii) :
  String.length (Go.ReplaceAll1 s old " ") = String.length s.
Proof.
  induction s as [|a s IH]; [reflexivity|].
  cbn [Go.ReplaceAll1]. destruct (Ascii.eqb a old).
  - rewrite string_app_cons, string_app_nil_l. simpl. now rewrite IH.
  - simpl. now rewrite IH.
Qed.

(** X15. The text that fetchMessageText returns is never longer than
    the text of the message it read. *)
Theorem fetchMessageText_text_bound {W : Type} `{Handler.SlackAPI W}
        (channelID ts : string)
        (usersCache : option (gmap string Handler.SlackUser)) (w w' : W)
        (msg : Handler.Message) (msgs : list Handler.Message) :
  Handler.GetConversationHistoryContext
    (Handler.MkHistoryParameters channelID ts ts 1 true) w
  = (inl (msg :: msgs), w') ->
  String.length (snd (fst (Handler.fetchMessageText channelID ts usersCache w)))
  <= String.length (Handler.msg_Text msg).
Proof.
  intros Hcall. unfold Handler.fetchMessageText. rewrite Hcall. cbn [fst snd].
  rewrite ReplaceAll1_space_length. apply replace_group1_length.
Qed.

Lemma fetchMessageText_text_bound_witness :
  let w := Handler.MkScripted [] [] []
             (fun _ => inl [Handler.MkMessage "U1" "<https://a.b|site> <x"])
             (fun _ _ => None) (inr "offline") in
  String.length (snd (fst (Handler.fetchMessageText "C1" "1.2" None w))) <= 21.
Proof.
  intros w.
  apply (fetchMessageText_text_bound "C1" "1.2" None w w
           (Handler.MkMessage "U1" "<https://a.b|site> <x") []).
  reflexivity.
Defined.

(** * Further properties of ValidateEnabledTools *)

(** Every element of a joined list occurs in the result. *)
Lemma Join_occurs (xs : list string) (sep x : string) :
  x ∈ xs -> exists pre post, Go.Join xs sep = pre ++ x ++ post.
Proof.
  induction xs as [|y ys IH]; intros Hin; [now apply elem_of_nil in Hin|].
  apply elem_of_cons in Hin as [-> | Hin].
  - destruct ys as [|z zs].
    + exists "", "". cbn [Go.Join]. now rewrite string_app_nil_l, string_app_nil_r.
    + exists "", (sep ++ Go.Join (z :: zs) sep). reflexivity.
  - destruct (IH Hin) as (pre & post & Hjoin).
    destruct ys as [|z zs]; [now apply elem_of_nil in Hin|].
    exists (y ++ sep ++ pre), post.
    change (Go.Join (y :: z :: zs) sep) with (y ++ sep ++ Go.Join (z :: zs) sep).
    rewrite Hjoin. now rewrite !string_app_assoc.
Qed.

(** X16. When the allow-list holds a name that is not a tool, the error
    of ValidateEnabledTools mentions that name, and it mentions every
    valid tool name as well. *)
Theorem ValidateEnabledTools_names_culprit (tools : list string) (t : string) :
  t ∈ tools -> t ∉ Server.ValidToolNames ->
  exists msg,
    Server.ValidateEnabledTools tools = Some msg
    /\ Go.Contains msg t = true
    /\ forall v, v ∈ Server.ValidToolNames -> Go.Contains msg v = true.
Proof.
  intros Hin Hbad.
  unfold Server.ValidateEnabledTools, Server.ValidateEnabledTools_run.
  rewrite validate_loop_spec. cbn [fst Server.vs_invalidTools].
  assert (Hculprit : t ∈ filter (fun t => t ∉ Server.ValidToolNames) tools)
    by (apply list_elem_of_filter; now split).
  destruct (filter (fun t => t ∉ Server.ValidToolNames) tools) as [|x xs] eqn:Hf;
    [now apply elem_of_nil in Hculprit|].
  eexists. split; [reflexivity|].
  unfold Server.invalid_tools_message. split.
  - destruct (Join_occurs _ ", " t Hculprit) as (pre & post & Hjoin).
    apply Contains_spec.
    exists ("invalid tool name(s): " ++ pre),
           (post ++ ". Valid tools are: " ++ Go.Join Server.ValidToolNames ", ").
    rewrite Hjoin. now rewrite !string_app_assoc.
  - intros v Hv.
    destruct (Join_occurs _ ", " v Hv) as (pre & post & Hjoin).
    apply Contains_spec.
    exists ("invalid tool name(s): " ++ Go.Join (x :: xs) ", "
              ++ ". Valid tools are: " ++ pre), post.
    rewrite Hjoin. now rewrite !string_app_assoc.
Qed.

Lemma ValidateEnabledTools_names_culprit_witness :
  exists msg,
    Server.ValidateEnabledTools ["channels_list"; "users_search"] = Some msg
    /\ Go.Contains msg "users_search" = true.
Proof.
  destruct (ValidateEnabledTools_names_culprit
              ["channels_list"; "users_search"] "users_search")
    as (msg & Hmsg & Hculprit & _).
  - repeat constructor.
  - unfold Server.ValidToolNames. intros Hin.
    repeat (apply elem_of_cons in Hin as [Heq | Hin]; [discriminate Heq|]).
    now apply elem_of_nil in Hin.
  - now exists msg.
Defined.

(** * The bound on the page loop *)

(** The bound given to the page loop does not show in its result:
    once the loop has returned within some number of iterations it
    returns the same items, or the same error, and leaves the backend in
    the same state under every larger bound. *)
Lemma fetch_pages_bound_irrelevant {W : Type} `{Handler.SlackAPI W} (fuel : nat) :
  forall (fuel' : nat) (cursor : string) (acc : list Handler.SavedItem) (w : W)
         (r : (list Handler.SavedItem + string) * W),
    Handler.fetch_pages fuel cursor acc w = Some r ->
    fuel <= fuel' ->
    Handler.fetch_pages fuel' cursor acc w = Some r.
Proof.
  induction fuel as [|fuel IH]; intros fuel' cursor acc w r; cbn [Handler.fetch_pages].
  - discriminate.
  - intros Hrun Hle. destruct fuel' as [|fuel']; [lia|]. cbn [Handler.fetch_pages].
    destruct (Handler.SavedListContext cursor w) as [[page|e] w1]; [|exact Hrun].
    destruct (String.eqb (Handler.NextCursor page) ""); [exact Hrun|].
    apply (IH fuel'); [exact Hrun | lia].
Qed.

